(** * NDC UK backend: the scoped-role authorization functions

    A shallow embedding of the PL/pgSQL functions [validate_role_assignment]
    and [can_assign_role] of [ndcuk_backend/complete_database_setup.sql],
    together with the part of the schema they read (tables [roles],
    [role_categories] and [executive_assignments], and the [valid_scope]
    CHECK constraint), and the properties of the authorization model that
    hold of them.

    Tables are finite maps from their primary key ([id uuid PRIMARY KEY]) to
    the remaining columns; a nullable column is an [option]; SQL's
    three-valued logic is written out, since both functions compare values
    that may be NULL. *)

From Stdlib Require Import ZArith String Ascii Bool List.
From stdpp Require Import gmap strings list fin_maps.

Local Open Scope string_scope.

(** ** SQL values *)

(** A [uuid] is a 128-bit number; only its equality is ever used. *)
Abbreviation uuid := N (only parsing).

(** [timestamp with time zone]: microseconds since the epoch. *)
Abbreviation timestamptz := Z (only parsing).

Module Sql.

(** A boolean expression evaluates to TRUE, FALSE or NULL. *)
Abbreviation sqlbool := (option bool) (only parsing).

(** [WHERE], [JOIN ... ON] and PL/pgSQL's [IF] keep a row, or take the
    branch, only when the condition is TRUE: NULL counts as not true. *)
Definition sql_true (b : sqlbool) : bool :=
  match b with
  | Some true => true
  | _ => false
  end.

(** [x AND y] *)
Definition sql_and (x y : sqlbool) : sqlbool :=
  match x, y with
  | Some false, _ | _, Some false => Some false
  | Some true, Some true => Some true
  | _, _ => None
  end.

(** [x OR y] *)
Definition sql_or (x y : sqlbool) : sqlbool :=
  match x, y with
  | Some true, _ | _, Some true => Some true
  | Some false, Some false => Some false
  | _, _ => None
  end.

(** [x = y]: NULL as soon as one side is NULL. *)
Definition sql_eq {A} `{EqDecision A} (x y : option A) : sqlbool :=
  match x, y with
  | Some a, Some b => Some (bool_decide (a = b))
  | _, _ => None
  end.

(** [x IN (v1, ..., vn)] for a list of non-null literals. *)
Definition sql_in {A} `{EqDecision A} (x : option A) (vs : list A) : sqlbool :=
  match x with
  | Some a => Some (bool_decide (a ∈ vs))
  | None => None
  end.

(** [x IS NOT NULL] is never NULL itself. *)
Definition is_not_null {A} (x : option A) : bool :=
  match x with
  | Some _ => true
  | None => false
  end.

(** [s LIKE p] on non-null operands: [%] matches any run of characters,
    [_] any one character, every other character itself (no pattern of
    the sources uses an escape). *)
Fixpoint like (p : string) : string -> bool :=
  match p with
  | EmptyString =>
      fun s => match s with EmptyString => true | String _ _ => false end
  | String c p' =>
      if Ascii.eqb c "%"%char then
        fix any_suffix (s : string) : bool :=
          like p' s
          || match s with
             | EmptyString => false
             | String _ s' => any_suffix s'
             end
      else if Ascii.eqb c "_"%char then
        fun s =>
          match s with
          | EmptyString => false
          | String _ s' => like p' s'
          end
      else
        fun s =>
          match s with
          | EmptyString => false
          | String d s' => Ascii.eqb c d && like p' s'
          end
  end.

#[global] Arguments like : simpl never.

(** [x LIKE p] where [x] may be NULL. *)
Definition sql_like (x : option string) (p : string) : sqlbool :=
  match x with
  | Some s => Some (like p s)
  | None => None
  end.

End Sql.

Import Sql.

(** ** Schema *)

(** [scope_type text NOT NULL CHECK (scope_type IN ('chapter', 'branch', 'both'))] *)
Inductive scope := Chapter | Branch | Both.

#[global] Instance scope_eq_dec : EqDecision scope.
Proof. solve_decision. Defined.

(** The literal a [scope] is stored as. *)
Definition scope_text (s : scope) : string :=
  match s with
  | Chapter => "chapter"
  | Branch => "branch"
  | Both => "both"
  end.

(** Table [role_categories], without [description] and [created_at]. *)
Module RoleCategory.
Record t := mk {
  name : string;                  (* text NOT NULL UNIQUE *)
  sort_order : option Z           (* integer DEFAULT 0 *)
}.
End RoleCategory.

(** Table [roles], without [description], [permissions] and the two
    bookkeeping timestamps: no function reads them. *)
Module Role.
Record t := mk {
  name : string;                  (* text NOT NULL UNIQUE *)
  scope_type : scope;             (* text NOT NULL CHECK (...) *)
  category_id : option uuid;      (* uuid REFERENCES role_categories(id) *)
  is_active : option bool         (* boolean DEFAULT true *)
}.
End Role.

(** Table [executive_assignments], without [notes] and the two bookkeeping
    timestamps. *)
Module Assignment.
Record t := mk {
  user_id : uuid;                 (* uuid NOT NULL *)
  role_id : uuid;                 (* uuid NOT NULL REFERENCES roles(id) *)
  chapter_id : option uuid;       (* uuid REFERENCES chapters(id) *)
  branch_id : option uuid;        (* uuid REFERENCES branches(id) *)
  start_date : timestamptz;       (* NOT NULL DEFAULT now() *)
  end_date : option timestamptz;
  is_active : option bool;        (* boolean DEFAULT true *)
  appointed_by : option uuid
}.

(** [CONSTRAINT valid_scope CHECK (...)] *)
Definition valid_scope (ea : t) : bool :=
  (is_not_null (chapter_id ea) && negb (is_not_null (branch_id ea)))
  || (negb (is_not_null (chapter_id ea)) && is_not_null (branch_id ea))
  || (is_not_null (chapter_id ea) && is_not_null (branch_id ea)).
End Assignment.

(** The state the two functions read: each table keyed by its primary key. *)
Record database := mkDatabase {
  role_categories : gmap uuid RoleCategory.t;
  roles : gmap uuid Role.t;
  executive_assignments : gmap uuid Assignment.t
}.

(** ** [validate_role_assignment] *)

(** [SELECT r.*, rc.name as category_name INTO role_record
     FROM roles r JOIN role_categories rc ON r.category_id = rc.id
     WHERE r.id = p_role_id]: the role and its category's name, or nothing
    ([NOT FOUND]) when no row joins. *)
Definition role_record (db : database) (p_role_id : option uuid)
  : option (Role.t * string) :=
  match p_role_id with
  | None => None
  | Some rid =>
      match roles db !! rid with
      | None => None
      | Some r =>
          match Role.category_id r with
          | None => None
          | Some cid =>
              match role_categories db !! cid with
              | None => None
              | Some rc => Some (r, RoleCategory.name rc)
              end
          end
      end
  end.

(** [SELECT COUNT( * ) INTO user_current_roles FROM executive_assignments
     WHERE user_id = p_user_id AND is_active = true] *)
Definition user_current_roles (db : database) (p_user_id : option uuid) : nat :=
  List.length
    (List.filter
       (fun kv : uuid * Assignment.t =>
          sql_true (sql_and (sql_eq (Some (Assignment.user_id kv.2)) p_user_id)
                            (sql_eq (Assignment.is_active kv.2) (Some true))))
       (map_to_list (executive_assignments db))).

Definition validate_role_assignment (db : database)
    (p_user_id p_role_id p_chapter_id p_branch_id : option uuid) : bool :=
  match role_record db p_role_id with
  | None => false                                  (* IF NOT FOUND *)
  | Some (r, _) =>
      let _ := user_current_roles db p_user_id in  (* counted, never read *)
      match Role.scope_type r with
      | Chapter => is_not_null p_chapter_id
      | Branch => is_not_null p_branch_id
      | Both => is_not_null p_chapter_id || is_not_null p_branch_id
      end
  end.

(** ** [can_assign_role] *)

(** [SELECT * INTO role_details FROM roles WHERE id = role_id]: when no row
    is found every field of [role_details] is NULL. *)
Definition role_details (db : database) (role_id : option uuid) : option Role.t :=
  match role_id with
  | None => None
  | Some rid => roles db !! rid
  end.

(** A row of the loop's query: [r.*, ea.chapter_id, ea.branch_id]. *)
Record assigner_row := mkRow {
  row_role : Role.t;
  row_chapter_id : option uuid;
  row_branch_id : option uuid
}.

(** What one ledger row contributes to
    [SELECT r.*, ea.chapter_id, ea.branch_id
     FROM executive_assignments ea JOIN roles r ON ea.role_id = r.id
     WHERE ea.user_id = assigner_user_id AND ea.is_active = true]. *)
Definition select_row (db : database) (assigner_user_id : option uuid)
    (ea : Assignment.t) : option assigner_row :=
  if sql_true (sql_and (sql_eq (Some (Assignment.user_id ea)) assigner_user_id)
                       (sql_eq (Assignment.is_active ea) (Some true)))
  then
    match roles db !! Assignment.role_id ea with
    | Some r => Some (mkRow r (Assignment.chapter_id ea) (Assignment.branch_id ea))
    | None => None
    end
  else None.

Definition assigner_roles_query (db : database) (assigner_user_id : option uuid)
  : list assigner_row :=
  omap (fun kv : uuid * Assignment.t => select_row db assigner_user_id kv.2)
       (map_to_list (executive_assignments db)).

(** The three [IF]s of the loop body, as conditions. *)
Definition is_chairman (row : assigner_row) : bool :=
  String.eqb (Role.name (row_role row)) "Chairman".

Definition secretary_rule (rd : option Role.t) (row : assigner_row) : bool :=
  sql_true
    (sql_and (Some (String.eqb (Role.name (row_role row)) "Secretary"))
             (sql_like (Role.name <$> rd) "%Committee%")).

Definition branch_chairman_rule (rd : option Role.t)
    (target_branch_id : option uuid) (row : assigner_row) : bool :=
  sql_true
    (sql_and
       (sql_and (Some (String.eqb (Role.name (row_role row)) "Branch Chairman"))
                (sql_in (scope_text <$> (Role.scope_type <$> rd)) ["branch"; "both"]))
       (sql_eq (row_branch_id row) target_branch_id)).

(** [FOR assigner_roles IN ... LOOP ... END LOOP; RETURN false]: the first
    row on which an [IF] holds returns true. *)
Fixpoint assigner_loop (rd : option Role.t) (target_branch_id : option uuid)
    (rows : list assigner_row) : bool :=
  match rows with
  | [] => false
  | row :: rest =>
      if is_chairman row then true
      else if secretary_rule rd row then true
      else if branch_chairman_rule rd target_branch_id row then true
      else assigner_loop rd target_branch_id rest
  end.

Definition can_assign_role (db : database)
    (assigner_user_id target_user_id role_id : option uuid)
    (target_chapter_id target_branch_id : option uuid) : bool :=
  let rd := role_details db role_id in
  assigner_loop rd target_branch_id (assigner_roles_query db assigner_user_id).

(** The loop body on one row. *)
Definition rule_fires (rd : option Role.t) (target_branch_id : option uuid)
    (row : assigner_row) : bool :=
  is_chairman row
  || secretary_rule rd row
  || branch_chairman_rule rd target_branch_id row.

(** ** The seeded catalog *)

(** Section 3 of the setup script: the four role categories and the 41
    roles, in insertion order, each with its scope and category. *)
Definition seed_categories : list string :=
  ["Chapter Executives"; "Branch Executives"; "Committees"; "Special Roles"].

Definition seed_role_rows : list (string * scope * string) :=
  [ ("Chairman", Chapter, "Chapter Executives");
    ("Vice Chairman", Chapter, "Chapter Executives");
    ("Secretary", Chapter, "Chapter Executives");
    ("Assistant Secretary", Chapter, "Chapter Executives");
    ("Treasurer", Chapter, "Chapter Executives");
    ("Assistant Treasurer", Chapter, "Chapter Executives");
    ("Organiser", Chapter, "Chapter Executives");
    ("Deputy Organiser", Chapter, "Chapter Executives");
    ("Youth Organiser", Chapter, "Chapter Executives");
    ("Deputy Youth Organiser", Chapter, "Chapter Executives");
    ("Women's Organiser", Chapter, "Chapter Executives");
    ("Deputy Women's Organiser", Chapter, "Chapter Executives");
    ("Public Relations Officer (PRO)", Chapter, "Chapter Executives");
    ("Deputy PRO", Chapter, "Chapter Executives");
    ("Welfare Officer", Chapter, "Chapter Executives");
    ("Branch Chairman", Branch, "Branch Executives");
    ("Branch Secretary", Branch, "Branch Executives");
    ("Branch Treasurer", Branch, "Branch Executives");
    ("Branch Organiser", Branch, "Branch Executives");
    ("Branch Youth Organiser", Branch, "Branch Executives");
    ("Branch Women's Organiser", Branch, "Branch Executives");
    ("Branch Welfare Officer", Branch, "Branch Executives");
    ("Branch PRO", Branch, "Branch Executives");
    ("Branch Executive Member", Branch, "Branch Executives");
    ("Finance Committee Chair", Chapter, "Committees");
    ("Finance Committee Member", Chapter, "Committees");
    ("Public Relations Committee Chair", Chapter, "Committees");
    ("Public Relations Committee Member", Chapter, "Committees");
    ("Research Committee Chair", Chapter, "Committees");
    ("Research Committee Member", Chapter, "Committees");
    ("Organisation Committee Chair", Chapter, "Committees");
    ("Organisation Committee Member", Chapter, "Committees");
    ("Welfare Committee Chair", Chapter, "Committees");
    ("Welfare Committee Member", Chapter, "Committees");
    ("Complaints Committee Chair", Chapter, "Committees");
    ("Complaints Committee Member", Chapter, "Committees");
    ("Disciplinary Committee Chair", Chapter, "Committees");
    ("Disciplinary Committee Member", Chapter, "Committees");
    ("Audit Committee Chair", Chapter, "Committees");
    ("Audit Committee Member", Chapter, "Committees");
    ("Electoral Commissioner", Both, "Special Roles") ].

(** One run of the seed: [gen_random_uuid()] is free to number the rows in
    insertion order, categories and roles each from 1. *)
Definition seed_category_table : gmap uuid RoleCategory.t :=
  list_to_map
    (imap (fun i n => (N.of_nat (S i), RoleCategory.mk n (Some (Z.of_nat (S i)))))
          seed_categories).

(** [SELECT id INTO category_... FROM role_categories WHERE name = ...] *)
Definition category_named (cats : gmap uuid RoleCategory.t) (n : string)
  : option uuid :=
  fst <$> List.find (fun kv : uuid * RoleCategory.t =>
                       String.eqb (RoleCategory.name kv.2) n)
                    (map_to_list cats).

Definition seed_role_table : gmap uuid Role.t :=
  list_to_map
    (imap (fun i (row : string * scope * string) =>
             (N.of_nat (S i),
              Role.mk row.1.1 row.1.2
                      (category_named seed_category_table row.2)
                      (Some true)))
          seed_role_rows).

(** The database right after setup: the catalog and an empty ledger. *)
Definition seed_db : database :=
  mkDatabase seed_category_table seed_role_table ∅.

(** [INSERT INTO executive_assignments ...] with a fresh key. *)
Definition insert_assignment (id : uuid) (ea : Assignment.t) (db : database)
  : database :=
  mkDatabase (role_categories db) (roles db)
             (<[id := ea]> (executive_assignments db)).

(** [INSERT INTO roles ...] with a fresh key. *)
Definition insert_role (id : uuid) (r : Role.t) (db : database) : database :=
  mkDatabase (role_categories db) (<[id := r]> (roles db))
             (executive_assignments db).

(** [DELETE FROM executive_assignments WHERE id = ...] *)
Definition delete_assignment (id : uuid) (db : database) : database :=
  mkDatabase (role_categories db) (roles db)
             (delete id (executive_assignments db)).

(** ** Notions of the specification *)

(** Section 3 of the specification: an assignment is currently effective
    iff [is_active = true], its [end_date] is null or in the future, and
    [start_date <= now]. The SQL sources have no counterpart; the
    properties below compare the check with it. *)
Definition currently_effective (now : timestamptz) (ea : Assignment.t) : bool :=
  sql_true (sql_eq (Assignment.is_active ea) (Some true))
  && match Assignment.end_date ea with
     | None => true
     | Some e => (now <? e)%Z
     end
  && (Assignment.start_date ea <=? now)%Z.

(** The assignment is loaded by the check's query and one of the three
    rules fires on its row: the permission the check derives from it. *)
Definition confers (db : database) (assigner_user_id role_id : option uuid)
    (target_branch_id : option uuid) (ea : Assignment.t) : bool :=
  match select_row db assigner_user_id ea with
  | Some row => rule_fires (role_details db role_id) target_branch_id row
  | None => false
  end.

(** Scope consistency of an assignment with a role (specification,
    section 3): chapter role, [chapter_id] set; branch role, [branch_id]
    set; both, at least one of the two. *)
Definition scope_consistent (r : Role.t) (ea : Assignment.t) : Prop :=
  match Role.scope_type r with
  | Chapter => Assignment.chapter_id ea <> None
  | Branch => Assignment.branch_id ea <> None
  | Both => Assignment.chapter_id ea <> None \/ Assignment.branch_id ea <> None
  end.

(** [sub] occurs in [s] as a run of consecutive characters. *)
Definition contains (sub s : string) : Prop :=
  exists pre post, s = pre +:+ sub +:+ post.

(** No [%] and no [_]: the pattern characters of LIKE. *)
Definition wildcard_free (lit : string) : bool :=
  forallb (fun c => negb (Ascii.eqb c "%"%char) && negb (Ascii.eqb c "_"%char))
          (list_ascii_of_string lit).

(** [UPDATE executive_assignments SET ... WHERE id = assignment_id], the
    new column values being [f] of the old ones. *)
Definition update_assignment (assignment_id : uuid)
    (f : Assignment.t -> Assignment.t) (db : database) : database :=
  mkDatabase (role_categories db) (roles db)
             (alter f assignment_id (executive_assignments db)).

(** Modelled from the spec: the [revoke] operation of the Assignment Ledger
    (section 4.4), whose code is not among the sources: it "sets
    end_date=now, is_active=false" on the row [assignmentId]. *)
Definition revoked (now : timestamptz) (ea : Assignment.t) : Assignment.t :=
  Assignment.mk (Assignment.user_id ea) (Assignment.role_id ea)
    (Assignment.chapter_id ea) (Assignment.branch_id ea)
    (Assignment.start_date ea) (Some now) (Some false)
    (Assignment.appointed_by ea).

Definition revoke (assignment_id : uuid) (now : timestamptz) (db : database)
  : database :=
  update_assignment assignment_id (revoked now) db.

(** ** Sample states

    Users 7 and 8, chapter 1, branches 2 and 3, on top of the seeded
    catalog (role 1 is Chairman, 3 Secretary, 16 Branch Chairman, 25
    Finance Committee Chair, 41 Electoral Commissioner). *)

(** A Chairman assignment that ran from time 10 to time 50 and whose
    [is_active] flag was left at its default. *)
Definition chairman_expired : Assignment.t :=
  Assignment.mk 7 1 (Some 1%N) None 10 (Some 50%Z) (Some true) None.

Definition db_expired_chairman : database :=
  insert_assignment 1 chairman_expired seed_db.

(** An open-ended Chairman assignment starting at time 10. *)
Definition chairman_current : Assignment.t :=
  Assignment.mk 7 1 (Some 1%N) None 10 None (Some true) None.

Definition db_chairman : database :=
  insert_assignment 1 chairman_current seed_db.

(** Two roles added to the catalog after setup: one named after a
    committee but filed under Special Roles (category 4), one filed under
    Committees (category 3) whose name does not say so; and a role with no
    category. *)
Definition committee_liaison : Role.t :=
  Role.mk "Committee Liaison Officer" Chapter (Some 4%N) (Some true).

Definition audit_panel_chair : Role.t :=
  Role.mk "Audit Panel Chair" Chapter (Some 3%N) (Some true).

Definition patron : Role.t :=
  Role.mk "Patron" Chapter None (Some true).

Definition secretary_current : Assignment.t :=
  Assignment.mk 7 3 (Some 1%N) None 10 None (Some true) None.

Definition db_secretary : database :=
  insert_assignment 1 secretary_current
    (insert_role 42 committee_liaison
       (insert_role 43 audit_panel_chair
          (insert_role 44 patron seed_db))).

(** Branch Chairman of branch 2. *)
Definition branch_chairman_current : Assignment.t :=
  Assignment.mk 7 16 None (Some 2%N) 10 None (Some true) None.

Definition db_branch_chairman : database :=
  insert_assignment 1 branch_chairman_current seed_db.

(** Branch Chairman of branch 2, with the ended Chairman assignment of
    [chairman_expired] still flagged active beside it. *)
Definition db_branch_chairman_past_chairman : database :=
  insert_assignment 2 chairman_expired db_branch_chairman.

(** A revoked Chairman assignment is all user 7 holds. *)
Definition chairman_inactive : Assignment.t :=
  Assignment.mk 7 1 (Some 1%N) None 10 (Some 50%Z) (Some false) None.

Definition db_inactive_chairman : database :=
  insert_assignment 1 chairman_inactive seed_db.

(** The category a role is filed under, by name. *)
Definition category_name (db : database) (r : Role.t) : option string :=
  match Role.category_id r with
  | Some cid => RoleCategory.name <$> role_categories db !! cid
  | None => None
  end.

(** ** Text of numbers, [LPAD] *)

(** The character of a decimal digit. *)
Definition digit (d : N) : ascii := ascii_of_N (48 + d).

(** [n::TEXT] for a non-negative integer: its decimal digits, most
    significant first, no leading zero. [fuel] bounds the number of
    digits. *)
Fixpoint text_fuel (fuel : nat) (n : N) : string :=
  match fuel with
  | O => ""
  | S f =>
      (if (n <? 10)%N then "" else text_fuel f (n / 10))
      +:+ String (digit (n mod 10)) ""
  end.

Definition text_of_N (n : N) : string :=
  text_fuel (S (N.to_nat (N.log2 n))) n.

(** The first [n] characters of [s]. *)
Fixpoint string_take (n : nat) (s : string) : string :=
  match n, s with
  | S n', String c s' => String c (string_take n' s')
  | _, _ => ""
  end.

(** The first [n] characters of [fill] repeated over and over, [cur]
    being what is left of the current copy. *)
Fixpoint fill_cycle (n : nat) (fill cur : string) : string :=
  match n with
  | O => ""
  | S n' =>
      match cur with
      | String c cur' => String c (fill_cycle n' fill cur')
      | EmptyString =>
          match fill with
          | String c fill' => String c (fill_cycle n' fill fill')
          | EmptyString => ""
          end
      end
  end.

(** [LPAD(s, len, fill)]: [s] extended on the left with [fill] up to
    [len] characters; a string already longer than [len] is cut on the
    right. *)
Definition lpad (s : string) (len : nat) (fill : string) : string :=
  if Nat.ltb (String.length s) len
  then fill_cycle (len - String.length s) fill fill +:+ s
  else string_take len s.

(** The number a string of decimal digits denotes (leading zeros
    allowed): the inverse of [text_of_N], used to state round trips. *)
Definition decimal_value (s : string) : N :=
  fold_left (fun acc c => (10 * acc + (N_of_ascii c - 48))%N)
            (list_ascii_of_string s) 0%N.

(** ** Member tables *)

(** A [date]: days since the epoch. *)
Abbreviation date := Z (only parsing).

(** Table [user_profiles] as the setup script creates it. *)
Module Profile.
(** [CHECK (status IN (...))] *)
Inductive status_value :=
  not_approved | pending_approval | approved | suspended | expired.

Record t := mk {
  full_name : string;                     (* text NOT NULL *)
  phone : option string;
  address : option string;
  date_of_birth : option date;
  avatar_url : option string;
  membership_number : option string;      (* text UNIQUE *)
  status : status_value;                  (* text NOT NULL DEFAULT 'not_approved' *)
  email_verified : option bool;           (* boolean DEFAULT false *)
  created_at : option timestamptz;        (* DEFAULT now() *)
  updated_at : option timestamptz         (* DEFAULT now() *)
}.
End Profile.

#[global] Instance profile_status_eq_dec : EqDecision Profile.status_value.
Proof. solve_decision. Defined.

(** A row of [auth.users] as the triggers see it ([NEW], [OLD]).
    [raw_user_meta_data] maps a key to the text [->>] yields for it; a key
    that is absent or holds JSON null, or a NULL column, has no entry. *)
Record auth_user := mkAuthUser {
  au_id : uuid;
  au_email : option string;
  raw_user_meta_data : gmap string string;
  email_confirmed_at : option timestamptz
}.

(** What a statement can raise. *)
Inductive sql_error :=
  | not_null_violation
  | unique_violation
  | foreign_key_violation
  | invalid_text_representation.

Inductive result (A : Type) :=
  | Ok (a : A)
  | Raise (e : sql_error).
Arguments Ok {A} a.
Arguments Raise {A} e.

(** ** [generate_membership_number] *)

(** [SELECT COUNT( * ) FROM user_profiles WHERE membership_number IS NOT NULL] *)
Definition numbered_profiles (profiles : gmap uuid Profile.t) : N :=
  N.of_nat
    (size (filter (fun kv : uuid * Profile.t =>
                     is_Some (Profile.membership_number kv.2))
                  profiles)).

(** ['NDC-' || counter || '-' || LPAD((count + 1)::TEXT, 4, '0')], [counter]
    being the current year. *)
Definition membership_number_text (counter count : N) : string :=
  "NDC-" +:+ text_of_N counter +:+ "-" +:+ lpad (text_of_N (count + 1)) 4 "0".

(** [year] is [EXTRACT(YEAR FROM NOW())]. *)
Definition generate_membership_number (year : N)
    (profiles : gmap uuid Profile.t) : string :=
  membership_number_text year (numbered_profiles profiles).

(** ** [handle_new_user] and [handle_email_verification] *)

(** [COALESCE(x, y)] *)
Definition coalesce {A} (x y : option A) : option A :=
  match x with
  | Some _ => x
  | None => y
  end.

(** Some profile carries this membership number. *)
Definition number_taken (profiles : gmap uuid Profile.t) (num : string) : Prop :=
  exists id p, profiles !! id = Some p /\ Profile.membership_number p = Some num.

#[global] Instance number_taken_dec profiles num :
  Decision (number_taken profiles num).
Proof.
  refine (cast_if (decide (map_Exists
            (fun _ p => Profile.membership_number p = Some num) profiles)));
    unfold number_taken, map_Exists in *; naive_solver.
Defined.

(** [INSERT INTO user_profiles (id, full_name, membership_number,
     email_verified) VALUES (...)]: the other columns take their defaults.
    [full_name] must not be null; [id] (primary key) and
    [membership_number] (UNIQUE) must not be there already. *)
Definition insert_profile (now : timestamptz) (id : uuid)
    (full_name : option string) (phone address : option string)
    (date_of_birth : option date) (membership_num : string)
    (email_verified : bool) (profiles : gmap uuid Profile.t)
  : result (gmap uuid Profile.t) :=
  match full_name with
  | None => Raise not_null_violation
  | Some n =>
      if decide (is_Some (profiles !! id)) then Raise unique_violation
      else if decide (number_taken profiles membership_num)
      then Raise unique_violation
      else
        Ok (<[id := Profile.mk n phone address date_of_birth None
                      (Some membership_num) Profile.not_approved
                      (Some email_verified) (Some now) (Some now)]> profiles)
  end.

(** The trigger function of the setup script, fired
    [AFTER INSERT ON auth.users]; [year] and [now] are read off [NOW()]. An
    error it raises undoes the insertion of the user. *)
Definition handle_new_user (year : N) (now : timestamptz)
    (profiles : gmap uuid Profile.t) (NEW : auth_user)
  : result (gmap uuid Profile.t) :=
  let membership_num := generate_membership_number year profiles in
  insert_profile now (au_id NEW)
    (coalesce (raw_user_meta_data NEW !! "full_name") (au_email NEW))
    None None None
    membership_num
    (is_not_null (email_confirmed_at NEW))
    profiles.

(** The [SET] list of [handle_email_verification]'s [UPDATE]. *)
Definition verified (now : timestamptz) (p : Profile.t) : Profile.t :=
  Profile.mk (Profile.full_name p) (Profile.phone p) (Profile.address p)
    (Profile.date_of_birth p) (Profile.avatar_url p)
    (Profile.membership_number p)
    (match Profile.status p with
     | Profile.not_approved => Profile.pending_approval
     | st => st
     end)
    (Some true) (Profile.created_at p) (Some now).

(** Fired [AFTER UPDATE ON auth.users], for each row. *)
Definition handle_email_verification (now : timestamptz)
    (profiles : gmap uuid Profile.t) (OLD NEW : auth_user)
  : gmap uuid Profile.t :=
  if is_not_null (email_confirmed_at NEW)
     && negb (is_not_null (email_confirmed_at OLD))
  then alter (verified now) (au_id NEW) profiles
  else profiles.

(** [DELETE FROM auth.users WHERE id = ...]: the profile goes with the
    user ([ON DELETE CASCADE]). *)
Definition delete_user (id : uuid) (profiles : gmap uuid Profile.t)
  : gmap uuid Profile.t :=
  delete id profiles.

(** ** The revised [handle_new_user] of [fix_trigger.sql] *)

(** Table [branches], without [description], [created_by] and the
    bookkeeping timestamps. *)
Module Branch.
Inductive status_value := active | inactive | pending.

Record t := mk {
  chapter_id : uuid;                      (* uuid NOT NULL REFERENCES chapters(id) *)
  name : string;
  location : string;
  min_members : option Z;                 (* integer DEFAULT 20 *)
  status : status_value                   (* text NOT NULL DEFAULT 'active' *)
}.
End Branch.

(** Table [memberships], without the bookkeeping timestamps. *)
Module Membership.
Inductive status_value := pending | active | lapsed | suspended.

Record t := mk {
  user_id : uuid;                         (* uuid NOT NULL REFERENCES auth.users(id) *)
  branch_id : uuid;                       (* uuid NOT NULL REFERENCES branches(id) *)
  status : status_value;                  (* text NOT NULL DEFAULT 'pending' *)
  joined_date : option timestamptz;       (* DEFAULT now() *)
  approved_by : option uuid;
  approved_at : option timestamptz;
  card_issued : option bool;              (* boolean DEFAULT false *)
  card_issued_at : option timestamptz
}.
End Membership.

(** The tables the revised trigger reads and writes. *)
Record member_tables := mkMembers {
  user_profiles : gmap uuid Profile.t;
  memberships : gmap uuid Membership.t;
  branches : gmap uuid Branch.t
}.

(** [NULLIF(x, '')] *)
Definition nullif_empty (x : option string) : option string :=
  match x with
  | Some s => if String.eqb s "" then None else Some s
  | None => None
  end.

(** The user already has a membership in the branch: the arbiter of
    [ON CONFLICT (user_id, branch_id)]. *)
Definition membership_exists (ms : gmap uuid Membership.t) (u b : uuid) : Prop :=
  exists id m, ms !! id = Some m
               /\ Membership.user_id m = u /\ Membership.branch_id m = b.

#[global] Instance membership_exists_dec ms u b :
  Decision (membership_exists ms u b).
Proof.
  refine (cast_if (decide (map_Exists
            (fun _ m => Membership.user_id m = u /\ Membership.branch_id m = b)
            ms)));
    unfold membership_exists, map_Exists in *; naive_solver.
Defined.

(** [INSERT INTO memberships (user_id, branch_id, status)
     VALUES (u, b, 'pending') ON CONFLICT (user_id, branch_id) DO NOTHING];
    [new_id] is what [gen_random_uuid()] draws for the key. The branch
    must exist (foreign key). *)
Definition insert_membership (now : timestamptz) (new_id u b : uuid)
    (st : member_tables) : result member_tables :=
  if decide (membership_exists (memberships st) u b) then Ok st
  else if decide (is_Some (memberships st !! new_id)) then Raise unique_violation
  else if decide (is_Some (branches st !! b)) then
    Ok (mkMembers (user_profiles st)
          (<[new_id := Membership.mk u b Membership.pending (Some now)
                         None None (Some false) None]> (memberships st))
          (branches st))
  else Raise foreign_key_violation.

Section RevisedTrigger.

(** The input functions of the types [uuid] and [date]: the value a text
    denotes, or nothing when the cast raises. *)
Variable uuid_in : string -> option uuid.
Variable date_in : string -> option date.

(** [NULLIF(NEW.raw_user_meta_data->>'branch_id', '')::UUID] *)
Definition user_branch_id (NEW : auth_user) : result (option uuid) :=
  match nullif_empty (raw_user_meta_data NEW !! "branch_id") with
  | None => Ok None
  | Some t =>
      match uuid_in t with
      | Some b => Ok (Some b)
      | None => Raise invalid_text_representation
      end
  end.

(** The inner block: the cast to [DATE], NULL when it raises. *)
Definition user_dob (NEW : auth_user) : option date :=
  match raw_user_meta_data NEW !! "date_of_birth" with
  | Some t => date_in t
  | None => None
  end.

(** The statements between [BEGIN] and [EXCEPTION]. *)
Definition revised_body (year : N) (now : timestamptz) (new_id : uuid)
    (st : member_tables) (NEW : auth_user) : result member_tables :=
  let membership_num := generate_membership_number year (user_profiles st) in
  let user_full_name :=
    coalesce (raw_user_meta_data NEW !! "full_name") (au_email NEW) in
  let user_phone := raw_user_meta_data NEW !! "phone" in
  match user_branch_id NEW with
  | Raise e => Raise e
  | Ok branch =>
      let user_address := raw_user_meta_data NEW !! "address" in
      match insert_profile now (au_id NEW) user_full_name user_phone
              user_address (user_dob NEW) membership_num
              (is_not_null (email_confirmed_at NEW)) (user_profiles st) with
      | Raise e => Raise e
      | Ok profiles' =>
          let st' := mkMembers profiles' (memberships st) (branches st) in
          match branch with
          | Some b => insert_membership now new_id (au_id NEW) b st'
          | None => Ok st'
          end
      end
  end.

(** [EXCEPTION WHEN OTHERS THEN RAISE WARNING ...; RETURN NEW]: whatever is
    raised is caught, the block's writes are undone, and the trigger
    returns normally. The second component is the error the warning
    reports, if any. *)
Definition handle_new_user_revised (year : N) (now : timestamptz)
    (new_id : uuid) (st : member_tables) (NEW : auth_user)
  : member_tables * option sql_error :=
  match revised_body year now new_id st NEW with
  | Ok st' => (st', None)
  | Raise e => (st, Some e)
  end.

End RevisedTrigger.

(** A state with branch 2 and nobody in it; a sign-up naming branch 2 and
    one naming a branch that does not exist. Keys are written in decimal
    here. *)
Definition one_branch : member_tables :=
  mkMembers ∅ ∅ {[ 2%N := Branch.mk 1 "London Central" "London" (Some 20%Z)
                            Branch.active ]}.

Definition decimal_uuid (s : string) : option uuid :=
  if forallb (fun c => (48 <=? N_of_ascii c)%N && (N_of_ascii c <=? 57)%N)
             (list_ascii_of_string s)
  then Some (decimal_value s)
  else None.

Definition yaw : auth_user :=
  mkAuthUser 5 (Some "yaw@example.org")
    {[ "full_name" := "Yaw Boateng"; "branch_id" := "2"; "phone" := "0700" ]}
    None.

Definition abena : auth_user :=
  mkAuthUser 6 (Some "abena@example.org")
    {[ "full_name" := "Abena Osei"; "branch_id" := "9" ]} None.

(** Every profile carries a number that was generated at a count below
    the present one: what a history of registrations without deletions
    leaves behind. *)
Definition issued_in_sequence (profiles : gmap uuid Profile.t) : Prop :=
  forall id p,
    profiles !! id = Some p ->
    exists year count,
      (count < numbered_profiles profiles)%N
      /\ Profile.membership_number p = Some (membership_number_text year count).

(** Three people signing up, none with a confirmed address yet. *)
Definition ama : auth_user :=
  mkAuthUser 1 (Some "ama@example.org") {[ "full_name" := "Ama Mensah" ]} None.

Definition kofi : auth_user :=
  mkAuthUser 2 (Some "kofi@example.org") ∅ None.

Definition esi : auth_user :=
  mkAuthUser 3 (Some "esi@example.org") ∅ (Some 90%Z).

(** A table with one suspended member whose address is unverified. *)
Definition suspended_esi : gmap uuid Profile.t :=
  {[ 3%N := Profile.mk "Esi" None None None None (Some "NDC-2024-0001")
              Profile.suspended (Some false) (Some 1%Z) (Some 1%Z) ]}.

(** ** Further notions for the two functions *)

(** The actor holds an assignment the check loads ([is_active = true],
    role found by the join) whose role and row satisfy [P]. *)
Definition holds (db : database) (a : option uuid)
    (P : Role.t -> Assignment.t -> Prop) : Prop :=
  exists id ea r,
    executive_assignments db !! id = Some ea
    /\ a = Some (Assignment.user_id ea)
    /\ Assignment.is_active ea = Some true
    /\ roles db !! Assignment.role_id ea = Some r
    /\ P r ea.

(** [UPDATE roles SET is_active = flag WHERE id = role_id]: how a role is
    deactivated or reactivated. *)
Definition with_is_active (flag : option bool) (r : Role.t) : Role.t :=
  Role.mk (Role.name r) (Role.scope_type r) (Role.category_id r) flag.

Definition set_role_is_active (role_id : uuid) (flag : option bool)
    (db : database) : database :=
  mkDatabase (role_categories db)
             (alter (with_is_active flag) role_id (roles db))
             (executive_assignments db).

(** A Vice Chairman and nothing else. *)
Definition vice_chairman_current : Assignment.t :=
  Assignment.mk 7 2 (Some 1%N) None 10 None (Some true) None.

Definition db_vice_chairman : database :=
  insert_assignment 1 vice_chairman_current seed_db.

(** ** The ledger rows behind a decision *)

Lemma assigner_loop_existsb rd tb rows :
  assigner_loop rd tb rows = existsb (rule_fires rd tb) rows.
Proof.
  induction rows as [|row rest IH]; simpl; [reflexivity|].
  unfold rule_fires at 1.
  destruct (is_chairman row); simpl; [reflexivity|].
  destruct (secretary_rule rd row); simpl; [reflexivity|].
  destruct (branch_chairman_rule rd tb row); simpl; [reflexivity|exact IH].
Qed.

Lemma select_row_Some db a ea row :
  select_row db a ea = Some row <->
  a = Some (Assignment.user_id ea)
  /\ Assignment.is_active ea = Some true
  /\ exists r, roles db !! Assignment.role_id ea = Some r
               /\ row = mkRow r (Assignment.chapter_id ea) (Assignment.branch_id ea).
Proof.
  unfold select_row, sql_eq.
  destruct a as [u|]; simpl.
  - destruct (Assignment.is_active ea) as [[|]|]; simpl;
      case_bool_decide; simpl;
      try (split; [discriminate | intros (? & ? & _); congruence]).
    destruct (roles db !! Assignment.role_id ea) as [r|].
    + split.
      * intros [= <-]. subst u. eauto.
      * intros (_ & _ & r' & [= <-] & ->). reflexivity.
    + split; [discriminate | intros (_ & _ & r' & ? & _); discriminate].
  - destruct (Assignment.is_active ea) as [[|]|]; simpl;
      (split; [discriminate | intros (? & _); discriminate]).
Qed.

Lemma elem_of_assigner_roles_query db a row :
  row ∈ assigner_roles_query db a <->
  exists id ea, executive_assignments db !! id = Some ea
                /\ select_row db a ea = Some row.
Proof.
  unfold assigner_roles_query. rewrite list_elem_of_omap. split.
  - intros ([id ea] & Hin & Hsel). apply elem_of_map_to_list in Hin. eauto.
  - intros (id & ea & Hl & Hsel). exists (id, ea). split; [|exact Hsel].
    by apply elem_of_map_to_list.
Qed.

(** [can_assign_role] allows exactly when some ledger row of the assigner
    with [is_active = true], joined with its role, makes a rule fire. *)
Lemma can_assign_role_true_iff db a t rid c b :
  can_assign_role db a t rid c b = true <->
  exists id ea row,
    executive_assignments db !! id = Some ea
    /\ select_row db a ea = Some row
    /\ rule_fires (role_details db rid) b row = true.
Proof.
  unfold can_assign_role. rewrite assigner_loop_existsb, existsb_exists.
  split.
  - intros (row & Hin & Hf). apply list_elem_of_In in Hin.
    apply elem_of_assigner_roles_query in Hin as (id & ea & ? & ?). eauto 6.
  - intros (id & ea & row & Hl & Hs & Hf). exists row. split; [|exact Hf].
    apply list_elem_of_In, elem_of_assigner_roles_query. eauto.
Qed.

Lemma can_assign_role_false_iff db a t rid c b :
  can_assign_role db a t rid c b = false <->
  forall id ea row,
    executive_assignments db !! id = Some ea ->
    select_row db a ea = Some row ->
    rule_fires (role_details db rid) b row = false.
Proof.
  rewrite <- not_true_iff_false, can_assign_role_true_iff. split.
  - intros Hn id ea row Hl Hs. apply not_true_iff_false. intros Hf.
    apply Hn. eauto 6.
  - intros Hall (id & ea & row & Hl & Hs & Hf).
    rewrite (Hall _ _ _ Hl Hs) in Hf. discriminate.
Qed.

(** ** The functions on the sample states *)

Example like_examples :
  like "%Committee%" "Finance Committee Chair" = true
  /\ like "%Committee%" "Committee" = true
  /\ like "%Committee%" "Branch Chairman" = false
  /\ like "a_c%" "abcdef" = true
  /\ like "a_c" "abcd" = false.
Proof. vm_compute. repeat split. Qed.

Example seeded_roles :
  Role.name <$> roles seed_db !! 1%N = Some "Chairman"
  /\ Role.name <$> roles seed_db !! 3%N = Some "Secretary"
  /\ Role.name <$> roles seed_db !! 16%N = Some "Branch Chairman"
  /\ Role.name <$> roles seed_db !! 25%N = Some "Finance Committee Chair"
  /\ Role.name <$> roles seed_db !! 41%N = Some "Electoral Commissioner"
  /\ size (roles seed_db) = 41.
Proof. vm_compute. repeat split. Qed.

Example validate_examples :
  validate_role_assignment seed_db (Some 8%N) (Some 1%N) (Some 1%N) None = true
  /\ validate_role_assignment seed_db (Some 8%N) (Some 16%N) None (Some 2%N) = true
  /\ validate_role_assignment seed_db (Some 8%N) (Some 41%N) None (Some 2%N) = true
  /\ validate_role_assignment seed_db (Some 8%N) (Some 99%N) (Some 1%N) None = false
  /\ validate_role_assignment seed_db (Some 8%N) None (Some 1%N) (Some 2%N) = false.
Proof. vm_compute. repeat split. Qed.

Example can_assign_role_examples :
  can_assign_role db_secretary (Some 7%N) (Some 8%N) (Some 25%N) (Some 1%N) None
  = true
  /\ can_assign_role db_secretary (Some 7%N) (Some 8%N) (Some 16%N) None (Some 2%N)
     = false
  /\ can_assign_role db_branch_chairman
       (Some 7%N) (Some 8%N) (Some 41%N) None (Some 2%N) = true
  /\ can_assign_role db_branch_chairman
       (Some 7%N) (Some 8%N) (Some 1%N) None (Some 2%N) = false
  /\ can_assign_role db_branch_chairman
       (Some 8%N) (Some 7%N) (Some 16%N) None (Some 2%N) = false
  /\ can_assign_role db_chairman None (Some 8%N) (Some 16%N) None (Some 2%N)
     = false.
Proof. vm_compute. repeat split. Qed.

(** ** Helper lemmas *)

Lemma is_chairman_true row :
  is_chairman row = true <-> Role.name (row_role row) = "Chairman".
Proof. unfold is_chairman. apply String.eqb_eq. Qed.

Lemma secretary_rule_true rd row :
  secretary_rule rd row = true <->
  Role.name (row_role row) = "Secretary"
  /\ exists r, rd = Some r /\ like "%Committee%" (Role.name r) = true.
Proof.
  unfold secretary_rule, sql_like.
  destruct (String.eqb_spec (Role.name (row_role row)) "Secretary") as [E|E];
    destruct rd as [r|]; simpl.
  - destruct (like "%Committee%" (Role.name r)) eqn:L; simpl.
    + split; [intros _; split; [exact E | eauto] | reflexivity].
    + split; [discriminate | intros (_ & r' & [= <-] & L'); congruence].
  - split; [discriminate | intros (_ & r' & ? & _); discriminate].
  - destruct (like "%Committee%" (Role.name r)); simpl;
      (split; [discriminate | intros (? & _); contradiction]).
  - split; [discriminate | intros (? & _); contradiction].
Qed.

Lemma scope_in_branch_both (s : scope) :
  bool_decide (scope_text s ∈ ["branch"; "both"])
  = match s with Chapter => false | _ => true end.
Proof. destruct s; vm_compute; reflexivity. Qed.

Lemma branch_chairman_rule_true rd tb row :
  branch_chairman_rule rd tb row = true <->
  Role.name (row_role row) = "Branch Chairman"
  /\ (exists r, rd = Some r /\ Role.scope_type r <> Chapter)
  /\ exists b, row_branch_id row = Some b /\ tb = Some b.
Proof.
  unfold branch_chairman_rule, sql_in, sql_eq.
  split.
  - destruct (String.eqb_spec (Role.name (row_role row)) "Branch Chairman")
      as [E|E].
    + destruct rd as [r|]; simpl.
      * rewrite scope_in_branch_both.
        destruct (Role.scope_type r) eqn:S, (row_branch_id row) as [b1|],
          tb as [b2|]; simpl; try discriminate;
          case_bool_decide; simpl; try discriminate; subst; intros _;
          (split; [exact E|]);
          (split; [exists r; rewrite S; split; [reflexivity | discriminate]
                  | eauto]).
      * destruct (row_branch_id row), tb; simpl; try case_bool_decide;
          discriminate.
    + destruct rd as [r|]; simpl;
        try rewrite scope_in_branch_both;
        try destruct (Role.scope_type r); simpl;
        destruct (row_branch_id row), tb; simpl; try case_bool_decide;
        discriminate.
  - intros (E & (r & -> & Hs) & (b & -> & ->)). simpl.
    apply String.eqb_eq in E. rewrite E, scope_in_branch_both.
    rewrite bool_decide_eq_true_2 by reflexivity.
    destruct (Role.scope_type r); simpl; [contradiction | reflexivity..].
Qed.

Lemma confers_true db a rid b ea :
  confers db a rid b ea = true <->
  exists row, select_row db a ea = Some row
              /\ rule_fires (role_details db rid) b row = true.
Proof.
  unfold confers. destruct (select_row db a ea) as [row|].
  - split; [eauto | intros (row' & [= <-] & H); exact H].
  - split; [discriminate | intros (row' & ? & _); discriminate].
Qed.

Lemma can_assign_role_confers db a t rid c b :
  can_assign_role db a t rid c b = true <->
  exists id ea, executive_assignments db !! id = Some ea
                /\ confers db a rid b ea = true.
Proof.
  rewrite can_assign_role_true_iff. split.
  - intros (id & ea & row & Hl & Hs & Hf). exists id, ea. split; [exact Hl|].
    apply confers_true. eauto.
  - intros (id & ea & Hl & Hc). apply confers_true in Hc as (row & Hs & Hf).
    eauto 6.
Qed.

(** What a row confers depends on the catalog, never on the rest of the
    ledger. *)
Lemma confers_same_roles db db' a rid b ea :
  roles db' = roles db -> confers db' a rid b ea = confers db a rid b ea.
Proof.
  intros E. unfold confers, select_row, role_details. rewrite E. reflexivity.
Qed.

Lemma confers_loaded db a rid b ea :
  confers db a rid b ea = true ->
  a = Some (Assignment.user_id ea) /\ Assignment.is_active ea = Some true.
Proof.
  intros H. apply confers_true in H as (row & Hs & _).
  apply select_row_Some in Hs as (Ha & Hact & _). auto.
Qed.

(** An allow that turns into a deny once a row is deleted was conferred by
    that row. *)
Lemma decisive_confers db a t rid c b id ea :
  executive_assignments db !! id = Some ea ->
  can_assign_role db a t rid c b = true ->
  can_assign_role (delete_assignment id db) a t rid c b = false ->
  confers db a rid b ea = true.
Proof.
  intros Hl Hyes Hno.
  apply can_assign_role_confers in Hyes as (id' & ea' & Hl' & Hc).
  destruct (decide (id' = id)) as [->|Hne]; [congruence|].
  exfalso. apply not_true_iff_false in Hno. apply Hno.
  apply can_assign_role_confers. exists id', ea'. split.
  - simpl. rewrite lookup_delete_ne; [exact Hl' | congruence].
  - rewrite (confers_same_roles db); [exact Hc | reflexivity].
Qed.

Lemma currently_effective_is_active now ea :
  currently_effective now ea = true -> Assignment.is_active ea = Some true.
Proof.
  unfold currently_effective.
  destruct (Assignment.is_active ea) as [[|]|]; simpl; [reflexivity| |];
    discriminate.
Qed.

(** ** Effective assignments (C1) *)

(** C1, as amended. For every state, every check and every ledger row: if
    the row confers a permission in [can_assign_role] (the query loads it
    and a rule fires on it), or the decision is an allow that becomes a
    deny once the row is deleted, then the row is the assigner's and its
    [is_active] is true. The check never reads [start_date] or [end_date]:
    the same row with any other dates confers exactly the same. *)
Theorem granting_assignment_is_active db a t rid c b id ea :
  executive_assignments db !! id = Some ea ->
  (confers db a rid b ea = true
   \/ (can_assign_role db a t rid c b = true
       /\ can_assign_role (delete_assignment id db) a t rid c b = false)) ->
  (a = Some (Assignment.user_id ea) /\ Assignment.is_active ea = Some true)
  /\ forall sd ed,
       confers db a rid b
         (Assignment.mk (Assignment.user_id ea) (Assignment.role_id ea)
            (Assignment.chapter_id ea) (Assignment.branch_id ea)
            sd ed (Assignment.is_active ea) (Assignment.appointed_by ea))
       = true.
Proof.
  intros Hl H.
  assert (Hc : confers db a rid b ea = true).
  { destruct H as [Hc | [Hyes Hno]]; [exact Hc|].
    eapply decisive_confers; eassumption. }
  split; [exact (confers_loaded _ _ _ _ _ Hc)|].
  intros sd ed. rewrite <- Hc. reflexivity.
Qed.

Lemma granting_assignment_is_active_witness :
  Assignment.is_active chairman_current = Some true
  /\ confers db_chairman (Some 7%N) (Some 16%N) (Some 2%N)
       (Assignment.mk 7 1 (Some 1%N) None 999 (Some 1%Z) (Some true) None)
     = true.
Proof.
  pose proof (granting_assignment_is_active db_chairman (Some 7%N) (Some 8%N)
                (Some 16%N) None (Some 2%N) 1%N chairman_current
                eq_refl (or_introl eq_refl)) as [[_ Hact] Hdates].
  split; [exact Hact | exact (Hdates 999%Z (Some 1%Z))].
Defined.

(** C1 as stated fails: at time 100 user 7's only assignment is a
    Chairman assignment with [is_active = true] that ended at time 50. It
    is not currently effective, yet the check allows on its strength: the
    row confers the permission, and without the row the check denies. *)
Lemma expired_assignment_still_grants :
  executive_assignments db_expired_chairman !! 1%N = Some chairman_expired
  /\ Assignment.is_active chairman_expired = Some true
  /\ Assignment.end_date chairman_expired = Some 50%Z
  /\ currently_effective 100 chairman_expired = false
  /\ confers db_expired_chairman (Some 7%N) (Some 16%N) (Some 2%N)
       chairman_expired = true
  /\ can_assign_role db_expired_chairman
       (Some 7%N) (Some 8%N) (Some 16%N) None (Some 2%N) = true
  /\ can_assign_role (delete_assignment 1 db_expired_chairman)
       (Some 7%N) (Some 8%N) (Some 16%N) None (Some 2%N) = false.
Proof. vm_compute. repeat split. Qed.

(** ** Deny by default (C3) *)

(** C3, as amended. An assigner none of whose [executive_assignments]
    rows has [is_active = true] is denied by [can_assign_role], for every
    target user, role and scope. The dates of the rows are not looked
    at. *)
Theorem deny_by_default db a t rid c b :
  (forall id ea,
     executive_assignments db !! id = Some ea ->
     a = Some (Assignment.user_id ea) ->
     Assignment.is_active ea <> Some true) ->
  can_assign_role db a t rid c b = false.
Proof.
  intros Hnone. apply can_assign_role_false_iff. intros id ea row Hl Hs.
  apply select_row_Some in Hs as (Ha & Hact & _).
  destruct (Hnone id ea Hl Ha Hact).
Qed.

Lemma deny_by_default_witness :
  can_assign_role seed_db (Some 7%N) (Some 8%N) (Some 16%N) None (Some 2%N)
  = false
  /\ can_assign_role db_inactive_chairman
       (Some 7%N) (Some 8%N) (Some 16%N) None (Some 2%N) = false.
Proof.
  split; apply deny_by_default; intros id ea Hl _; simpl in Hl.
  - rewrite lookup_empty in Hl. discriminate.
  - apply lookup_insert_Some in Hl as [[_ <-] | [_ Hl]]; [discriminate|].
    rewrite lookup_empty in Hl. discriminate.
Defined.

(** C3 as stated fails: at time 100 user 7 holds no currently effective
    assignment (the one row of the ledger ended at time 50), and the check
    allows all the same, the row's [is_active] being true. *)
Lemma no_effective_assignment_yet_allowed :
  (forall id ea,
     executive_assignments db_expired_chairman !! id = Some ea ->
     Assignment.user_id ea = 7%N ->
     currently_effective 100 ea = false)
  /\ can_assign_role db_expired_chairman
       (Some 7%N) (Some 8%N) (Some 16%N) None (Some 2%N) = true.
Proof.
  split; [|reflexivity].
  intros id ea Hl _. simpl in Hl.
  apply lookup_insert_Some in Hl as [[_ <-] | [_ Hl]]; [reflexivity|].
  rewrite lookup_empty in Hl. discriminate.
Qed.

(** ** Super-authority (C4) *)

Lemma chairman_row_allows db a t rid c b id ea r :
  executive_assignments db !! id = Some ea ->
  a = Some (Assignment.user_id ea) ->
  Assignment.is_active ea = Some true ->
  roles db !! Assignment.role_id ea = Some r ->
  Role.name r = "Chairman" ->
  can_assign_role db a t rid c b = true.
Proof.
  intros Hl Ha Hact Hr Hn. apply can_assign_role_true_iff.
  exists id, ea, (mkRow r (Assignment.chapter_id ea) (Assignment.branch_id ea)).
  split; [exact Hl|]. split.
  - apply select_row_Some. eauto 6.
  - unfold rule_fires.
    rewrite (proj2 (is_chairman_true _)) by exact Hn. reflexivity.
Qed.

(** C4. An actor holding a currently effective assignment whose role is
    named 'Chairman' is allowed by [can_assign_role] whatever the target
    user, the target role (existing or not) and the target chapter and
    branch (set or null). *)
Theorem chairman_super_authority db now actor id ea r t rid c b :
  executive_assignments db !! id = Some ea ->
  Assignment.user_id ea = actor ->
  currently_effective now ea = true ->
  roles db !! Assignment.role_id ea = Some r ->
  Role.name r = "Chairman" ->
  can_assign_role db (Some actor) t rid c b = true.
Proof.
  intros Hl Hu Heff Hr Hn.
  eapply chairman_row_allows; try eassumption.
  - congruence.
  - eapply currently_effective_is_active. exact Heff.
Qed.

Lemma chairman_super_authority_witness :
  currently_effective 100 chairman_current = true
  /\ can_assign_role db_chairman (Some 7%N) (Some 8%N) (Some 41%N) None (Some 3%N)
     = true
  /\ can_assign_role db_chairman (Some 7%N) None None None None = true.
Proof.
  split; [reflexivity|].
  split;
    apply (chairman_super_authority db_chairman 100%Z 7%N 1%N chairman_current
             (Role.mk "Chairman" Chapter (Some 1%N) (Some true)));
    reflexivity.
Defined.

(** ** Independence of the target user (C9) *)

(** C9. [can_assign_role] never reads [target_user_id]: for a fixed state,
    assigner, role and target scope, any two target users (null included)
    get the same answer; in particular the assigner themselves gets the
    answer anyone else gets. *)
Theorem target_user_irrelevant db a t1 t2 rid c b :
  can_assign_role db a t1 rid c b = can_assign_role db a t2 rid c b
  /\ can_assign_role db a a rid c b = can_assign_role db a t1 rid c b.
Proof. split; reflexivity. Qed.

(** ** Branch scoping (C6) *)

(** C6, as amended. When every assignment of the actor with
    [is_active = true] is the 'Branch Chairman' role held for branch [B],
    [can_assign_role] denies every operation whose target branch is not
    [B]: another branch, or no branch at all. *)
Theorem branch_scoping db a t rid c B tb :
  (forall id ea,
     executive_assignments db !! id = Some ea ->
     a = Some (Assignment.user_id ea) ->
     Assignment.is_active ea = Some true ->
     Assignment.branch_id ea = Some B
     /\ Role.name <$> roles db !! Assignment.role_id ea = Some "Branch Chairman") ->
  tb <> Some B ->
  can_assign_role db a t rid c tb = false.
Proof.
  intros Honly Htb. apply can_assign_role_false_iff. intros id ea row Hl Hs.
  apply select_row_Some in Hs as (Ha & Hact & r & Hr & ->).
  destruct (Honly id ea Hl Ha Hact) as [HB Hname].
  rewrite Hr in Hname. injection Hname as Hname.
  unfold rule_fires.
  replace (is_chairman _) with false
    by (unfold is_chairman; simpl; rewrite Hname; reflexivity).
  replace (secretary_rule _ _) with false
    by (unfold secretary_rule; simpl; rewrite Hname; simpl;
        destruct (sql_like (Role.name <$> role_details db rid) "%Committee%")
          as [[|]|]; reflexivity).
  simpl. apply not_true_iff_false. intros Hf.
  apply branch_chairman_rule_true in Hf as (_ & _ & b' & Hb & ->).
  simpl in Hb. congruence.
Qed.

Lemma branch_scoping_witness :
  can_assign_role db_branch_chairman
    (Some 7%N) (Some 8%N) (Some 16%N) None (Some 3%N) = false
  /\ can_assign_role db_branch_chairman
       (Some 7%N) (Some 8%N) (Some 16%N) None None = false
  /\ can_assign_role db_branch_chairman
       (Some 7%N) (Some 8%N) (Some 16%N) None (Some 2%N) = true.
Proof.
  assert (Honly : forall id ea,
             executive_assignments db_branch_chairman !! id = Some ea ->
             Some 7%N = Some (Assignment.user_id ea) ->
             Assignment.is_active ea = Some true ->
             Assignment.branch_id ea = Some 2%N
             /\ Role.name <$> roles db_branch_chairman !! Assignment.role_id ea
                = Some "Branch Chairman").
  { intros id ea Hl _ _. simpl in Hl.
    apply lookup_insert_Some in Hl as [[_ <-] | [_ Hl]].
    - split; reflexivity.
    - rewrite lookup_empty in Hl. discriminate. }
  split; [|split].
  - apply (branch_scoping db_branch_chairman _ _ _ _ 2%N); [exact Honly|].
    discriminate.
  - apply (branch_scoping db_branch_chairman _ _ _ _ 2%N); [exact Honly|].
    discriminate.
  - reflexivity.
Defined.

(** C6 as stated fails: at time 100 the only currently effective
    assignment of user 7 is the Branch Chairman role for branch 2; the
    Chairman assignment beside it ended at time 50 but is still flagged
    active. The check allows an operation on branch 3, and one with no
    target branch. *)
Lemma past_chairman_breaks_branch_scoping :
  (forall id ea,
     executive_assignments db_branch_chairman_past_chairman !! id = Some ea ->
     Assignment.user_id ea = 7%N ->
     currently_effective 100 ea = true ->
     id = 1%N /\ ea = branch_chairman_current)
  /\ executive_assignments db_branch_chairman_past_chairman !! 1%N
     = Some branch_chairman_current
  /\ currently_effective 100 branch_chairman_current = true
  /\ Assignment.branch_id branch_chairman_current = Some 2%N
  /\ Role.name <$> roles db_branch_chairman_past_chairman !! 16%N
     = Some "Branch Chairman"
  /\ Role.scope_type <$> roles db_branch_chairman_past_chairman !! 16%N
     = Some Branch
  /\ can_assign_role db_branch_chairman_past_chairman
       (Some 7%N) (Some 8%N) (Some 16%N) None (Some 3%N) = true
  /\ can_assign_role db_branch_chairman_past_chairman
       (Some 7%N) (Some 8%N) (Some 16%N) None None = true.
Proof.
  split; [|vm_compute; repeat split].
  intros id ea Hl _ Heff. simpl in Hl.
  apply lookup_insert_Some in Hl as [[_ <-] | [_ Hl]]; [discriminate|].
  apply lookup_insert_Some in Hl as [[<- <-] | [_ Hl]]; [auto|].
  rewrite lookup_empty in Hl. discriminate.
Qed.

(** ** Revocation (C7) *)

(** C7. Once an assignment row has been updated so that [is_active] is
    false (as [revoke] does), the row confers nothing in any check on the
    updated state, and [can_assign_role] answers there exactly as it does
    on the state with that row deleted, whatever an earlier call returned:
    the decision is a function of the current ledger alone. *)
Theorem revocation_immediacy db assignment_id f a t rid c b :
  (forall ea, Assignment.is_active (f ea) = Some false) ->
  (forall ea',
     executive_assignments (update_assignment assignment_id f db)
       !! assignment_id = Some ea' ->
     confers (update_assignment assignment_id f db) a rid b ea' = false)
  /\ can_assign_role (update_assignment assignment_id f db) a t rid c b
     = can_assign_role (delete_assignment assignment_id db) a t rid c b.
Proof.
  intros Hoff.
  assert (Hrow : forall ea',
             executive_assignments (update_assignment assignment_id f db)
               !! assignment_id = Some ea' ->
             confers (update_assignment assignment_id f db) a rid b ea' = false).
  { intros ea' Hl. simpl in Hl. rewrite lookup_alter_eq in Hl.
    destruct (executive_assignments db !! assignment_id) as [ea0|];
      [|discriminate].
    injection Hl as <-. apply not_true_iff_false. intros Hc.
    apply confers_loaded in Hc as [_ Hact]. rewrite Hoff in Hact.
    discriminate. }
  split; [exact Hrow|].
  apply eq_true_iff_eq. rewrite !can_assign_role_confers. split.
  - intros (id & ea & Hl & Hc).
    destruct (decide (id = assignment_id)) as [->|Hne].
    + rewrite (Hrow ea Hl) in Hc. discriminate.
    + simpl in Hl. rewrite lookup_alter_ne in Hl by congruence.
      exists id, ea. split.
      * simpl. rewrite lookup_delete_ne by congruence. exact Hl.
      * rewrite <- Hc. apply confers_same_roles. reflexivity.
  - intros (id & ea & Hl & Hc). simpl in Hl.
    destruct (decide (id = assignment_id)) as [->|Hne].
    + rewrite lookup_delete_eq in Hl. discriminate.
    + rewrite lookup_delete_ne in Hl by congruence.
      exists id, ea. split.
      * simpl. rewrite lookup_alter_ne by congruence. exact Hl.
      * rewrite <- Hc. apply confers_same_roles. reflexivity.
Qed.

(** A check that succeeded before the revocation fails right after it. *)
Lemma revocation_immediacy_witness :
  can_assign_role db_chairman (Some 7%N) (Some 8%N) (Some 16%N) None (Some 2%N)
  = true
  /\ can_assign_role (revoke 1 100 db_chairman)
       (Some 7%N) (Some 8%N) (Some 16%N) None (Some 2%N) = false.
Proof.
  split; [reflexivity|].
  pose proof (revocation_immediacy db_chairman 1%N (revoked 100)
                (Some 7%N) (Some 8%N) (Some 16%N) None (Some 2%N)
                (fun _ => eq_refl)) as [_ Heq].
  unfold revoke. rewrite Heq. reflexivity.
Defined.

(** ** Scope validation (C2, C8, C10) *)

Lemma role_record_Some db p_role_id r cat :
  role_record db p_role_id = Some (r, cat) ->
  exists rid cid rc,
    p_role_id = Some rid /\ roles db !! rid = Some r
    /\ Role.category_id r = Some cid /\ role_categories db !! cid = Some rc
    /\ cat = RoleCategory.name rc.
Proof.
  unfold role_record. destruct p_role_id as [rid|]; [|discriminate].
  destruct (roles db !! rid) as [r0|] eqn:Hr; [|discriminate].
  destruct (Role.category_id r0) as [cid|] eqn:Hc; [|discriminate].
  destruct (role_categories db !! cid) as [rc|] eqn:Hrc; [|discriminate].
  intros [= <- <-]. exists rid, cid, rc. auto.
Qed.

Lemma is_not_null_true {A} (x : option A) : is_not_null x = true <-> x <> None.
Proof. destruct x; simpl; split; congruence. Qed.

Lemma validate_role_assignment_true db u p_role_id c b :
  validate_role_assignment db u p_role_id c b = true ->
  exists rid r,
    p_role_id = Some rid /\ roles db !! rid = Some r
    /\ match Role.scope_type r with
       | Chapter => c <> None
       | Branch => b <> None
       | Both => c <> None \/ b <> None
       end.
Proof.
  unfold validate_role_assignment.
  destruct (role_record db p_role_id) as [[r cat]|] eqn:Hrec; [|discriminate].
  apply role_record_Some in Hrec as (rid & cid & rc & -> & Hr & _).
  intros H. exists rid, r. split; [reflexivity|]. split; [exact Hr|].
  destruct (Role.scope_type r).
  - by apply is_not_null_true.
  - by apply is_not_null_true.
  - apply orb_true_iff in H. rewrite !is_not_null_true in H. exact H.
Qed.

(** C2. An assignment row that passes the [valid_scope] CHECK and that
    [validate_role_assignment], called on its own columns, accepts, has
    at least one scope column set and agrees with the scope type of the
    role it references: chapter role, [chapter_id] set; branch role,
    [branch_id] set; both, one of the two set. *)
Theorem validated_assignment_scope_consistent db ea :
  Assignment.valid_scope ea = true ->
  validate_role_assignment db
    (Some (Assignment.user_id ea)) (Some (Assignment.role_id ea))
    (Assignment.chapter_id ea) (Assignment.branch_id ea) = true ->
  (Assignment.chapter_id ea <> None \/ Assignment.branch_id ea <> None)
  /\ exists r, roles db !! Assignment.role_id ea = Some r
               /\ scope_consistent r ea.
Proof.
  intros Hcheck Hval. split.
  - unfold Assignment.valid_scope in Hcheck.
    destruct (Assignment.chapter_id ea), (Assignment.branch_id ea);
      simpl in Hcheck; try discriminate; auto.
  - apply validate_role_assignment_true in Hval as (rid & r & [= <-] & Hr & Hs).
    exists r. split; [exact Hr | exact Hs].
Qed.

Lemma validated_assignment_scope_consistent_witness :
  Assignment.valid_scope branch_chairman_current = true
  /\ validate_role_assignment db_branch_chairman
       (Some 7%N) (Some 16%N) None (Some 2%N) = true
  /\ exists r, roles db_branch_chairman !! 16%N = Some r
               /\ scope_consistent r branch_chairman_current.
Proof.
  split; [reflexivity|]. split; [reflexivity|].
  apply (validated_assignment_scope_consistent db_branch_chairman
           branch_chairman_current); reflexivity.
Defined.

(** C8. For an existing role, [validate_role_assignment] returns false
    when the role is chapter-scoped and no [chapter_id] is given (a
    [branch_id] being given or not), when it is branch-scoped and no
    [branch_id] is given, and when it is scoped 'both' and neither is
    given. *)
Theorem scope_validation_failure db rid r u c b :
  roles db !! rid = Some r ->
  (Role.scope_type r = Chapter ->
   validate_role_assignment db u (Some rid) None b = false)
  /\ (Role.scope_type r = Branch ->
      validate_role_assignment db u (Some rid) c None = false)
  /\ (Role.scope_type r = Both ->
      validate_role_assignment db u (Some rid) None None = false).
Proof.
  intros Hr. unfold validate_role_assignment, role_record. rewrite Hr.
  destruct (Role.category_id r) as [cid|]; [|by repeat split].
  destruct (role_categories db !! cid) as [rc|]; [|by repeat split].
  repeat split; intros ->; reflexivity.
Qed.

Lemma scope_validation_failure_witness :
  validate_role_assignment seed_db (Some 8%N) (Some 1%N) None (Some 2%N) = false
  /\ validate_role_assignment seed_db (Some 8%N) (Some 16%N) (Some 1%N) None
     = false
  /\ validate_role_assignment seed_db (Some 8%N) (Some 41%N) None None = false.
Proof.
  split; [|split].
  - exact (proj1 (scope_validation_failure seed_db 1%N
                    (Role.mk "Chairman" Chapter (Some 1%N) (Some true))
                    (Some 8%N) None (Some 2%N) eq_refl) eq_refl).
  - exact (proj1 (proj2 (scope_validation_failure seed_db 16%N
                    (Role.mk "Branch Chairman" Branch (Some 2%N) (Some true))
                    (Some 8%N) (Some 1%N) None eq_refl)) eq_refl).
  - exact (proj2 (proj2 (scope_validation_failure seed_db 41%N
                    (Role.mk "Electoral Commissioner" Both (Some 4%N) (Some true))
                    (Some 8%N) None None eq_refl)) eq_refl).
Defined.

(** C10. A role whose [category_id] is null is never validated: the lookup
    inner-joins [role_categories], finds no row, and the function returns
    false for every user, [chapter_id] and [branch_id]. *)
Theorem uncategorised_role_never_validates db rid r u c b :
  roles db !! rid = Some r ->
  Role.category_id r = None ->
  validate_role_assignment db u (Some rid) c b = false.
Proof.
  intros Hr Hc. unfold validate_role_assignment, role_record.
  rewrite Hr, Hc. reflexivity.
Qed.

Lemma uncategorised_role_never_validates_witness :
  Role.scope_type patron = Chapter
  /\ validate_role_assignment db_secretary
       (Some 8%N) (Some 44%N) (Some 1%N) None = false.
Proof.
  split; [reflexivity|].
  apply (uncategorised_role_never_validates db_secretary 44%N patron);
    reflexivity.
Defined.

(** ** LIKE as substring search *)

Lemma like_percent p s :
  like (String "%" p) s
  = like p s
    || match s with
       | EmptyString => false
       | String _ s' => like (String "%" p) s'
       end.
Proof. destruct s; reflexivity. Qed.

Lemma like_literal c p s :
  Ascii.eqb c "%"%char = false ->
  Ascii.eqb c "_"%char = false ->
  like (String c p) s
  = match s with
    | EmptyString => false
    | String d s' => Ascii.eqb c d && like p s'
    end.
Proof.
  intros H1 H2. unfold like. rewrite H1, H2. fold like.
  destruct s; reflexivity.
Qed.

Lemma like_percent_only s : like "%" s = true.
Proof.
  induction s as [|d s IH]; [reflexivity|].
  rewrite like_percent, IH. apply orb_true_r.
Qed.

(** [% p] matches [s] exactly when [p] matches a suffix of [s]. *)
Lemma like_percent_true p s :
  like (String "%" p) s = true <->
  exists pre rest, s = pre +:+ rest /\ like p rest = true.
Proof.
  induction s as [|d s IH]; rewrite like_percent.
  - rewrite orb_false_r. split.
    + intros H. exists "", "". auto.
    + intros (pre & rest & E & H). destruct pre; [|discriminate].
      change (EmptyString = rest) in E. subst rest. exact H.
  - rewrite orb_true_iff, IH. split.
    + intros [H | (pre & rest & -> & H)].
      * exists "", (String d s). auto.
      * exists (String d pre), rest. auto.
    + intros (pre & rest & E & H). destruct pre as [|d' pre].
      * change (String d s = rest) in E. subst rest. auto.
      * change (String d s = String d' (pre +:+ rest)) in E.
        injection E as -> ->. right. eauto.
Qed.

(** A wildcard-free literal followed by [%] matches the strings that start
    with the literal. *)
Lemma like_literal_percent_true lit s :
  wildcard_free lit = true ->
  like (lit +:+ "%") s = true <-> exists post, s = lit +:+ post.
Proof.
  revert s. induction lit as [|c lit IH]; intros s Hw.
  - change (like "%" s = true <-> exists post, s = post).
    split; [eauto | intros _; apply like_percent_only].
  - change (like (String c (lit +:+ "%")) s = true
            <-> exists post, s = String c (lit +:+ post)).
    apply andb_true_iff in Hw as [Hc Hw].
    apply andb_true_iff in Hc as [H1 H2].
    apply negb_true_iff in H1, H2.
    rewrite like_literal by assumption.
    destruct s as [|d s].
    + split; [discriminate | intros (post & E); discriminate].
    + rewrite andb_true_iff, (IH s Hw). split.
      * intros [Hcd (post & ->)]. apply Ascii.eqb_eq in Hcd as ->. eauto.
      * intros (post & [= <- ->]). split; [apply Ascii.eqb_refl | eauto].
Qed.

Lemma like_contains lit s :
  wildcard_free lit = true ->
  like (String "%" (lit +:+ "%")) s = true <-> contains lit s.
Proof.
  intros Hw. rewrite like_percent_true. unfold contains. split.
  - intros (pre & rest & -> & H).
    apply like_literal_percent_true in H as (post & ->); eauto.
  - intros (pre & post & ->). exists pre, (lit +:+ post). split; [reflexivity|].
    apply like_literal_percent_true; eauto.
Qed.

Lemma like_Committee s :
  like "%Committee%" s = true <-> contains "Committee" s.
Proof. apply (like_contains "Committee"). reflexivity. Qed.

(** ** The Secretary's rule (C5) *)

(** C5, as amended. When every active assignment of the actor is the
    'Secretary' role, and there is one, [can_assign_role] allows exactly
    when the target role exists and its name contains 'Committee'
    ([LIKE '%Committee%']). The role's category is not consulted. *)
Theorem secretary_assigns_committee_named_roles db a t rid c b :
  (forall id ea,
     executive_assignments db !! id = Some ea ->
     a = Some (Assignment.user_id ea) ->
     Assignment.is_active ea = Some true ->
     Role.name <$> roles db !! Assignment.role_id ea = Some "Secretary") ->
  (exists id ea,
     executive_assignments db !! id = Some ea
     /\ a = Some (Assignment.user_id ea)
     /\ Assignment.is_active ea = Some true) ->
  can_assign_role db a t rid c b = true <->
  exists r, role_details db rid = Some r /\ contains "Committee" (Role.name r).
Proof.
  intros Honly (id0 & ea0 & Hl0 & Ha0 & Hact0).
  rewrite can_assign_role_true_iff. split.
  - intros (id & ea & row & Hl & Hs & Hf).
    apply select_row_Some in Hs as (Ha & Hact & r0 & Hr0 & ->).
    pose proof (Honly id ea Hl Ha Hact) as Hname.
    rewrite Hr0 in Hname. injection Hname as Hname.
    unfold rule_fires in Hf. apply orb_true_iff in Hf as [Hf | Hf].
    + apply orb_true_iff in Hf as [Hf | Hf].
      * apply is_chairman_true in Hf. simpl in Hf. congruence.
      * apply secretary_rule_true in Hf as (_ & r & Hrd & Hlike).
        exists r. split; [exact Hrd | by apply like_Committee].
    + apply branch_chairman_rule_true in Hf as (Hf & _). simpl in Hf.
      congruence.
  - intros (r & Hrd & Hsub).
    pose proof (Honly id0 ea0 Hl0 Ha0 Hact0) as Hname.
    destruct (roles db !! Assignment.role_id ea0) as [r0|] eqn:Hr0;
      [|discriminate].
    injection Hname as Hname.
    exists id0, ea0,
      (mkRow r0 (Assignment.chapter_id ea0) (Assignment.branch_id ea0)).
    split; [exact Hl0|]. split.
    + apply select_row_Some. eauto 6.
    + unfold rule_fires.
      rewrite (proj2 (secretary_rule_true _ _));
        [rewrite orb_true_r; reflexivity|].
      split; [exact Hname|]. exists r. split; [exact Hrd|].
      by apply like_Committee.
Qed.

Lemma secretary_assigns_committee_named_roles_witness :
  can_assign_role db_secretary (Some 7%N) (Some 8%N) (Some 25%N) (Some 1%N) None
  = true.
Proof.
  apply (secretary_assigns_committee_named_roles db_secretary).
  - intros id ea Hl _ _. simpl in Hl.
    apply lookup_insert_Some in Hl as [[_ <-] | [_ Hl]]; [reflexivity|].
    rewrite lookup_empty in Hl. discriminate.
  - exists 1%N, secretary_current. repeat split.
  - exists (Role.mk "Finance Committee Chair" Chapter (Some 3%N) (Some true)).
    split; [reflexivity|]. exists "Finance ", " Chair". reflexivity.
Defined.

(** C5 as stated fails in both directions. User 7's only assignment is
    the Secretary role. Role 42, filed under Special Roles, has
    'Committee' in its name and the check allows assigning it; role 43,
    filed under Committees, has not, and the check denies. *)
Lemma secretary_rule_ignores_category :
  executive_assignments db_secretary = {[ 1%N := secretary_current ]}
  /\ Role.name <$> roles db_secretary !! 3%N = Some "Secretary"
  /\ roles db_secretary !! 42%N = Some committee_liaison
  /\ category_name db_secretary committee_liaison = Some "Special Roles"
  /\ can_assign_role db_secretary
       (Some 7%N) (Some 8%N) (Some 42%N) (Some 1%N) None = true
  /\ roles db_secretary !! 43%N = Some audit_panel_chair
  /\ category_name db_secretary audit_panel_chair = Some "Committees"
  /\ can_assign_role db_secretary
       (Some 7%N) (Some 8%N) (Some 43%N) (Some 1%N) None = false.
Proof. vm_compute. repeat split. Qed.

(** On the seeded catalog the two readings agree: a seeded role has
    'Committee' in its name exactly when it is filed under Committees. *)
Lemma seed_committee_names row :
  row ∈ seed_role_rows ->
  contains "Committee" row.1.1 <-> row.2 = "Committees".
Proof.
  intros Hin. rewrite <- like_Committee.
  assert (Hall : forallb (fun row : string * scope * string =>
                            Bool.eqb (like "%Committee%" row.1.1)
                                     (String.eqb row.2 "Committees"))
                         seed_role_rows = true) by (vm_compute; reflexivity).
  rewrite forallb_forall in Hall. apply list_elem_of_In, Hall in Hin.
  apply eqb_prop in Hin. rewrite Hin. apply String.eqb_eq.
Qed.

(** * Further properties of the two functions *)

(** ** The decision table of [can_assign_role] *)

Lemma rule_fires_true rd tb row :
  rule_fires rd tb row = true <->
  Role.name (row_role row) = "Chairman"
  \/ (Role.name (row_role row) = "Secretary"
      /\ exists tr, rd = Some tr /\ contains "Committee" (Role.name tr))
  \/ (Role.name (row_role row) = "Branch Chairman"
      /\ (exists tr, rd = Some tr /\ Role.scope_type tr <> Chapter)
      /\ exists B, row_branch_id row = Some B /\ tb = Some B).
Proof.
  unfold rule_fires.
  rewrite !orb_true_iff, is_chairman_true, secretary_rule_true,
    branch_chairman_rule_true.
  setoid_rewrite like_Committee. tauto.
Qed.

Lemma can_assign_role_cases db a t rid c b :
  can_assign_role db a t rid c b = true <->
  holds db a (fun r _ => Role.name r = "Chairman")
  \/ (holds db a (fun r _ => Role.name r = "Secretary")
      /\ exists tr, role_details db rid = Some tr
                    /\ contains "Committee" (Role.name tr))
  \/ (exists tr B,
        role_details db rid = Some tr
        /\ Role.scope_type tr <> Chapter
        /\ b = Some B
        /\ holds db a (fun r ea => Role.name r = "Branch Chairman"
                                   /\ Assignment.branch_id ea = Some B)).
Proof.
  rewrite can_assign_role_true_iff. unfold holds. split.
  - intros (id & ea & row & Hl & Hs & Hf).
    apply select_row_Some in Hs as (Ha & Hact & r & Hr & ->).
    apply rule_fires_true in Hf as [Hn | [[Hn Ht] | (Hn & (tr & Ht & Hsc) & B & HB & ->)]];
      simpl in *.
    + left. eauto 10.
    + right. left. split; [eauto 10 | exact Ht].
    + right. right. exists tr, B. repeat split; try assumption. eauto 12.
  - intros [(id & ea & r & Hl & Ha & Hact & Hr & Hn)
           | [[(id & ea & r & Hl & Ha & Hact & Hr & Hn) Ht]
             | (tr & B & Ht & Hsc & -> & id & ea & r & Hl & Ha & Hact & Hr & Hn & HB)]];
      exists id, ea,
        (mkRow r (Assignment.chapter_id ea) (Assignment.branch_id ea));
      (split; [exact Hl|]);
      (split; [apply select_row_Some; eauto 6|]);
      apply rule_fires_true; simpl.
    + left. exact Hn.
    + right. left. auto.
    + right. right. split; [exact Hn|]. split; eauto.
Qed.

(** X1. [can_assign_role] allows exactly in three cases: the assigner
    holds an active 'Chairman' assignment; or holds an active 'Secretary'
    assignment and the target role exists with 'Committee' in its name; or
    the target role exists, is not chapter-scoped, the target branch is
    set, and the assigner holds an active 'Branch Chairman' assignment
    for that very branch. Neither the target user nor the target chapter
    enters the decision. *)
Theorem can_assign_role_decision_table db a t rid c b :
  can_assign_role db a t rid c b = true <->
  holds db a (fun r _ => Role.name r = "Chairman")
  \/ (holds db a (fun r _ => Role.name r = "Secretary")
      /\ exists tr, role_details db rid = Some tr
                    /\ contains "Committee" (Role.name tr))
  \/ (exists tr B,
        role_details db rid = Some tr
        /\ Role.scope_type tr <> Chapter
        /\ b = Some B
        /\ holds db a (fun r ea => Role.name r = "Branch Chairman"
                                   /\ Assignment.branch_id ea = Some B)).
Proof.
  rewrite can_assign_role_true_iff. unfold holds. split.
  - intros (id & ea & row & Hl & Hs & Hf).
    apply select_row_Some in Hs as (Ha & Hact & r & Hr & ->).
    apply rule_fires_true in Hf as [Hn | [[Hn Ht] | (Hn & (tr & Ht & Hsc) & B & HB & ->)]];
      simpl in *.
    + left. eauto 10.
    + right. left. split; [eauto 10 | exact Ht].
    + right. right. exists tr, B. repeat split; try assumption. eauto 12.
  - intros [(id & ea & r & Hl & Ha & Hact & Hr & Hn)
           | [[(id & ea & r & Hl & Ha & Hact & Hr & Hn) Ht]
             | (tr & B & Ht & Hsc & -> & id & ea & r & Hl & Ha & Hact & Hr & Hn & HB)]];
      exists id, ea,
        (mkRow r (Assignment.chapter_id ea) (Assignment.branch_id ea));
      (split; [exact Hl|]);
      (split; [apply select_row_Some; eauto 6|]);
      apply rule_fires_true; simpl.
    + left. exact Hn.
    + right. left. auto.
    + right. right. split; [exact Hn|]. split; eauto.
Qed.

Lemma holds_insert_assignment db a P id ea :
  executive_assignments db !! id = None ->
  holds db a P -> holds (insert_assignment id ea db) a P.
Proof.
  intros Hfresh (id' & ea' & r & Hl & H). exists id', ea', r.
  split; [|exact H]. simpl. rewrite lookup_insert_ne; [exact Hl|].
  intros ->. congruence.
Qed.

Lemma holds_delete_assignment db a P id :
  holds (delete_assignment id db) a P -> holds db a P.
Proof.
  intros (id' & ea' & r & Hl & H). exists id', ea', r.
  split; [|exact H]. simpl in Hl.
  apply lookup_delete_Some in Hl as [_ Hl]. exact Hl.
Qed.

(** X2. There is no deny rule: recording one more assignment (under a
    fresh key) never turns an allow into a deny, and deleting a row never
    turns a deny into an allow. *)
Theorem can_assign_role_monotone db a t rid c b id ea :
  (executive_assignments db !! id = None ->
   can_assign_role db a t rid c b = true ->
   can_assign_role (insert_assignment id ea db) a t rid c b = true)
  /\ (can_assign_role (delete_assignment id db) a t rid c b = true ->
      can_assign_role db a t rid c b = true).
Proof.
  split.
  - intros Hfresh. rewrite !can_assign_role_cases.
    intros [H | [[H Ht] | (tr & B & Ht & Hs & Hb & H)]].
    + left. by apply holds_insert_assignment.
    + right. left. split; [by apply holds_insert_assignment | exact Ht].
    + right. right. exists tr, B. repeat split; try assumption.
      by apply holds_insert_assignment.
  - rewrite !can_assign_role_cases.
    intros [H | [[H Ht] | (tr & B & Ht & Hs & Hb & H)]].
    + left. by eapply holds_delete_assignment.
    + right. left. split; [by eapply holds_delete_assignment | exact Ht].
    + right. right. exists tr, B. repeat split; try assumption.
      by eapply holds_delete_assignment.
Qed.

Lemma can_assign_role_monotone_witness :
  can_assign_role (insert_assignment 2 vice_chairman_current db_branch_chairman)
    (Some 7%N) (Some 8%N) (Some 16%N) None (Some 2%N) = true.
Proof.
  apply (proj1 (can_assign_role_monotone db_branch_chairman (Some 7%N)
                  (Some 8%N) (Some 16%N) None (Some 2%N) 2%N
                  vice_chairman_current));
    reflexivity.
Defined.

(** X3. An assigner none of whose active roles is named 'Chairman',
    'Secretary' or 'Branch Chairman' is denied whatever the target: no
    other role of the catalog carries any assignment authority. *)
Theorem other_roles_confer_nothing db a t rid c b :
  (forall id ea r,
     executive_assignments db !! id = Some ea ->
     a = Some (Assignment.user_id ea) ->
     Assignment.is_active ea = Some true ->
     roles db !! Assignment.role_id ea = Some r ->
     Role.name r <> "Chairman" /\ Role.name r <> "Secretary"
     /\ Role.name r <> "Branch Chairman") ->
  can_assign_role db a t rid c b = false.
Proof.
  intros Hother. apply not_true_iff_false.
  rewrite can_assign_role_cases. unfold holds.
  intros [(id & ea & r & Hl & Ha & Hact & Hr & Hn)
         | [[(id & ea & r & Hl & Ha & Hact & Hr & Hn) _]
           | (tr & B & _ & _ & _ & id & ea & r & Hl & Ha & Hact & Hr & Hn & _)]];
    destruct (Hother id ea r Hl Ha Hact Hr) as (H1 & H2 & H3); contradiction.
Qed.

Lemma other_roles_confer_nothing_witness :
  Role.name <$> roles db_vice_chairman !! 2%N = Some "Vice Chairman"
  /\ can_assign_role db_vice_chairman
       (Some 7%N) (Some 8%N) (Some 25%N) (Some 1%N) (Some 2%N) = false.
Proof.
  split; [reflexivity|].
  apply other_roles_confer_nothing. intros id ea r Hl _ _ Hr. simpl in Hl.
  apply lookup_insert_Some in Hl as [[_ <-] | [_ Hl]].
  - vm_compute in Hr. injection Hr as <-. repeat split; discriminate.
  - rewrite lookup_empty in Hl. discriminate.
Defined.

(** X4. A Branch Chairman's reach, exactly: when every active assignment
    of the actor is the 'Branch Chairman' role for branch [B], and there
    is one, [can_assign_role] allows if and only if the target role
    exists, is scoped 'branch' or 'both', and the target branch is [B]. A
    chapter-scoped role is refused even for the actor's own branch. *)
Theorem branch_chairman_reach db a t rid c B tb :
  (forall id ea,
     executive_assignments db !! id = Some ea ->
     a = Some (Assignment.user_id ea) ->
     Assignment.is_active ea = Some true ->
     Assignment.branch_id ea = Some B
     /\ Role.name <$> roles db !! Assignment.role_id ea = Some "Branch Chairman") ->
  (exists id ea,
     executive_assignments db !! id = Some ea
     /\ a = Some (Assignment.user_id ea)
     /\ Assignment.is_active ea = Some true) ->
  can_assign_role db a t rid c tb = true <->
  (exists tr, role_details db rid = Some tr /\ Role.scope_type tr <> Chapter)
  /\ tb = Some B.
Proof.
  intros Honly (id0 & ea0 & Hl0 & Ha0 & Hact0).
  rewrite can_assign_role_cases. unfold holds. split.
  - intros [(id & ea & r & Hl & Ha & Hact & Hr & Hn)
           | [[(id & ea & r & Hl & Ha & Hact & Hr & Hn) _]
             | (tr & B' & Ht & Hs & -> & id & ea & r & Hl & Ha & Hact & Hr & Hn & HB)]];
      destruct (Honly id ea Hl Ha Hact) as [HB0 Hname];
      rewrite Hr in Hname; injection Hname as Hname; try congruence.
    split; [eauto | congruence].
  - intros [(tr & Ht & Hs) ->]. right. right. exists tr, B.
    repeat split; try assumption.
    destruct (Honly id0 ea0 Hl0 Ha0 Hact0) as [HB0 Hname].
    destruct (roles db !! Assignment.role_id ea0) as [r0|] eqn:Hr0;
      [|discriminate].
    injection Hname as Hname. exists id0, ea0, r0. auto 8.
Qed.

Lemma branch_chairman_reach_witness :
  can_assign_role db_branch_chairman
    (Some 7%N) (Some 8%N) (Some 41%N) None (Some 2%N) = true.
Proof.
  apply (branch_chairman_reach db_branch_chairman _ _ _ _ 2%N).
  - intros id ea Hl _ _. simpl in Hl.
    apply lookup_insert_Some in Hl as [[_ <-] | [_ Hl]]; [split; reflexivity|].
    rewrite lookup_empty in Hl. discriminate.
  - exists 1%N, branch_chairman_current. repeat split.
  - split; [|reflexivity].
    exists (Role.mk "Electoral Commissioner" Both (Some 4%N) (Some true)).
    split; [reflexivity | discriminate].
Defined.

(** X5. For a [role_id] that is null or names no row of [roles], the
    check still allows a Chairman, and nobody else. *)
Theorem unknown_target_role db a t rid c b :
  role_details db rid = None ->
  can_assign_role db a t rid c b = true <->
  holds db a (fun r _ => Role.name r = "Chairman").
Proof.
  intros Hnone. rewrite can_assign_role_cases, Hnone. split.
  - intros [H | [[_ (tr & Ht & _)] | (tr & B & Ht & _)]];
      [exact H | discriminate..].
  - auto.
Qed.

Lemma unknown_target_role_witness :
  can_assign_role db_chairman (Some 7%N) (Some 8%N) (Some 99%N) None (Some 2%N)
  = true
  /\ can_assign_role db_secretary (Some 7%N) (Some 8%N) (Some 99%N) None None
     = false.
Proof.
  split.
  - apply (unknown_target_role db_chairman); [reflexivity|].
    exists 1%N, chairman_current,
      (Role.mk "Chairman" Chapter (Some 1%N) (Some true)).
    repeat split.
  - apply not_true_iff_false. intros H.
    apply (unknown_target_role db_secretary) in H; [|reflexivity].
    destruct H as (id & ea & r & Hl & _ & _ & Hr & Hn). simpl in Hl.
    apply lookup_insert_Some in Hl as [[_ <-] | [_ Hl]].
    + vm_compute in Hr. injection Hr as <-. discriminate.
    + rewrite lookup_empty in Hl. discriminate.
Defined.

(** ** A role's own [is_active] flag *)

Lemma lookup_set_role_is_active db role_id flag k :
  roles (set_role_is_active role_id flag db) !! k
  = (if decide (k = role_id) then with_is_active flag else id) <$> roles db !! k.
Proof.
  simpl. destruct (decide (k = role_id)) as [->|Hne].
  - rewrite lookup_alter_eq. reflexivity.
  - rewrite lookup_alter_ne by congruence.
    destruct (roles db !! k); reflexivity.
Qed.

Lemma rule_fires_ext rd rd' tb r r' c bb :
  Role.name r = Role.name r' ->
  Role.name <$> rd = Role.name <$> rd' ->
  Role.scope_type <$> rd = Role.scope_type <$> rd' ->
  rule_fires rd tb (mkRow r c bb) = rule_fires rd' tb (mkRow r' c bb).
Proof.
  intros Hn Hrn Hrs.
  unfold rule_fires, is_chairman, secretary_rule, branch_chairman_rule.
  cbn [row_role row_branch_id]. rewrite Hn, Hrn, Hrs. reflexivity.
Qed.

Lemma role_details_set_role_is_active db role_id flag rid :
  role_details (set_role_is_active role_id flag db) rid
  = (if decide (rid = Some role_id) then with_is_active flag else id)
    <$> role_details db rid.
Proof.
  unfold role_details. destruct rid as [k|].
  - rewrite lookup_set_role_is_active.
    destruct (decide (k = role_id)), (decide (Some k = Some role_id));
      try reflexivity; congruence.
  - destruct (decide (None = Some role_id)); reflexivity.
Qed.

Lemma confers_set_role_is_active db role_id flag a rid b ea :
  confers (set_role_is_active role_id flag db) a rid b ea
  = confers db a rid b ea.
Proof.
  unfold confers, select_row.
  destruct (sql_true _); [|reflexivity].
  rewrite lookup_set_role_is_active.
  destruct (roles db !! Assignment.role_id ea) as [r0|]; [|reflexivity].
  cbn [fmap option_fmap option_map].
  rewrite role_details_set_role_is_active.
  apply rule_fires_ext.
  - destruct (decide (Assignment.role_id ea = role_id)); reflexivity.
  - destruct (role_details db rid), (decide (rid = Some role_id)); reflexivity.
  - destruct (role_details db rid), (decide (rid = Some role_id)); reflexivity.
Qed.

(** X6. Neither function reads [roles.is_active]: deactivating (or
    reactivating) any role changes no answer of [can_assign_role] or of
    [validate_role_assignment]. A deactivated role still validates, can
    still be assigned, and still gives its holders their authority. *)
Theorem role_is_active_never_read db role_id flag a t rid c b u :
  can_assign_role (set_role_is_active role_id flag db) a t rid c b
  = can_assign_role db a t rid c b
  /\ validate_role_assignment (set_role_is_active role_id flag db) u rid c b
     = validate_role_assignment db u rid c b.
Proof.
  split.
  - apply eq_true_iff_eq. rewrite !can_assign_role_confers.
    split; intros (id & ea & Hl & Hc); exists id, ea; (split; [exact Hl|]).
    + rewrite <- Hc. symmetry. apply confers_set_role_is_active.
    + rewrite <- Hc. apply confers_set_role_is_active.
  - unfold validate_role_assignment, role_record.
    destruct rid as [k|]; [|reflexivity].
    rewrite lookup_set_role_is_active.
    destruct (roles db !! k) as [r|]; simpl; [|reflexivity].
    destruct (decide (k = role_id)); simpl; try reflexivity.
    destruct (Role.category_id r) as [cid|]; [|reflexivity].
    destruct (role_categories db !! cid); reflexivity.
Qed.

Example deactivated_chairman_role_still_rules :
  Role.is_active <$> roles (set_role_is_active 1 (Some false) db_chairman) !! 1%N
  = Some (Some false)
  /\ can_assign_role (set_role_is_active 1 (Some false) db_chairman)
       (Some 7%N) (Some 8%N) (Some 1%N) (Some 1%N) None = true
  /\ validate_role_assignment (set_role_is_active 1 (Some false) db_chairman)
       (Some 8%N) (Some 1%N) (Some 1%N) None = true.
Proof. vm_compute. repeat split. Qed.

(** ** [validate_role_assignment], exactly *)

(** X7. [validate_role_assignment] returns true exactly when the role
    exists, has a category that exists, and the scope arguments fit its
    scope type. The user and the ledger play no part: the count of the
    user's active roles is taken and never used, so no number of roles
    already held makes validation fail. *)
Theorem validate_role_assignment_spec db u p_role_id c b :
  validate_role_assignment db u p_role_id c b = true <->
  exists rid r cid rc,
    p_role_id = Some rid
    /\ roles db !! rid = Some r
    /\ Role.category_id r = Some cid
    /\ role_categories db !! cid = Some rc
    /\ match Role.scope_type r with
       | Chapter => c <> None
       | Branch => b <> None
       | Both => c <> None \/ b <> None
       end.
Proof.
  unfold validate_role_assignment. split.
  - destruct (role_record db p_role_id) as [[r cat]|] eqn:Hrec; [|discriminate].
    apply role_record_Some in Hrec as (rid & cid & rc & -> & Hr & Hc & Hrc & _).
    intros H. exists rid, r, cid, rc. repeat split; try assumption.
    destruct (Role.scope_type r).
    + by apply is_not_null_true.
    + by apply is_not_null_true.
    + apply orb_true_iff in H. rewrite !is_not_null_true in H. exact H.
  - intros (rid & r & cid & rc & -> & Hr & Hc & Hrc & Hs).
    unfold role_record. rewrite Hr, Hc, Hrc.
    destruct (Role.scope_type r).
    + by apply is_not_null_true.
    + by apply is_not_null_true.
    + apply orb_true_iff. rewrite !is_not_null_true. exact Hs.
Qed.

(** * Membership numbers *)

(** ** Strings *)

Lemma append_cons c (a b : string) : String c a +:+ b = String c (a +:+ b).
Proof. reflexivity. Qed.

Lemma length_append (a b : string) :
  String.length (a +:+ b) = String.length a + String.length b.
Proof.
  induction a as [|c a IH]; [reflexivity|].
  rewrite append_cons. simpl. by rewrite IH.
Qed.

Lemma append_assoc (a b c : string) : (a +:+ b) +:+ c = a +:+ b +:+ c.
Proof.
  induction a as [|x a IH]; [reflexivity|].
  rewrite !append_cons. by rewrite IH.
Qed.

Lemma append_inv_head (p a b : string) : p +:+ a = p +:+ b -> a = b.
Proof.
  induction p as [|c p IH]; [auto|].
  rewrite !append_cons. intros [= H]. auto.
Qed.

(** Two concatenations with tails of equal length agree part by part. *)
Lemma append_inj_tail (a a' b b' : string) :
  String.length b = String.length b' ->
  a +:+ b = a' +:+ b' -> a = a' /\ b = b'.
Proof.
  revert a'. induction a as [|c a IH]; intros [|c' a'] Hlen H.
  - auto.
  - apply (f_equal String.length) in H.
    rewrite !length_append in H. simpl in H. lia.
  - apply (f_equal String.length) in H.
    rewrite !length_append in H. simpl in H. lia.
  - rewrite !append_cons in H. injection H as -> H.
    destruct (IH a' Hlen H) as [-> ->]. auto.
Qed.

Lemma string_take_length n s :
  String.length (string_take n s) = Nat.min n (String.length s).
Proof.
  revert s. induction n as [|n IH]; intros [|c s]; simpl; try reflexivity.
  by rewrite IH.
Qed.

Lemma string_take_all n s : String.length s <= n -> string_take n s = s.
Proof.
  revert s. induction n as [|n IH]; intros [|c s] H; simpl in *;
    try reflexivity; try lia.
  rewrite IH by lia. reflexivity.
Qed.

Lemma string_take_append n a b :
  n <= String.length a -> string_take n (a +:+ b) = string_take n a.
Proof.
  revert a. induction n as [|n IH]; intros [|c a] H; simpl in H;
    try reflexivity; try lia.
  rewrite append_cons. simpl. rewrite IH by lia. reflexivity.
Qed.

Lemma fill_cycle_length n fill cur :
  fill <> "" -> String.length (fill_cycle n fill cur) = n.
Proof.
  intros Hfill. revert cur. induction n as [|n IH]; intros cur; simpl;
    [reflexivity|].
  destruct cur as [|c cur]; [destruct fill as [|c fill]; [congruence|]|];
    simpl; by rewrite IH.
Qed.

Lemma lpad_cases s len fill :
  fill <> "" ->
  String.length (lpad s len fill) = len
  /\ (String.length s <= len ->
      exists pad, lpad s len fill = pad +:+ s
                  /\ String.length pad = len - String.length s)
  /\ (len <= String.length s -> lpad s len fill = string_take len s).
Proof.
  intros Hfill. unfold lpad.
  destruct (Nat.ltb_spec (String.length s) len) as [Hlt|Hge].
  - split; [|split].
    + rewrite length_append, fill_cycle_length by exact Hfill. lia.
    + intros _. eexists. split; [reflexivity|].
      by apply fill_cycle_length.
    + lia.
  - split; [|split].
    + rewrite string_take_length. lia.
    + intros Hle. exists "". split.
      * change ("" +:+ s) with s. apply string_take_all. lia.
      * change (String.length "") with 0. lia.
    + reflexivity.
Qed.

(** [LPAD] with a non-empty fill always returns exactly [len]
    characters: a shorter string is padded on the left and keeps its own
    characters at the end, a longer one is cut down to its first [len]
    characters, and one of exactly [len] characters is returned as is. *)
Theorem lpad_spec s len fill :
  fill <> "" ->
  String.length (lpad s len fill) = len
  /\ (String.length s <= len ->
      exists pad, lpad s len fill = pad +:+ s
                  /\ String.length pad = len - String.length s)
  /\ (len <= String.length s -> lpad s len fill = string_take len s).
Proof. apply lpad_cases. Qed.

Lemma lpad_spec_witness :
  lpad "7" 4 "0" = "0007" /\ String.length (lpad "12345" 4 "0") = 4.
Proof.
  split; [reflexivity|].
  apply (lpad_spec "12345" 4 "0"). discriminate.
Defined.

(** ** Decimal text *)

Lemma log2_div10 (n : N) : (10 <= n)%N -> (N.log2 (n / 10) < N.log2 n)%N.
Proof.
  intros Hn.
  assert (Hm : (0 < n / 10)%N) by (apply N.div_str_pos; lia).
  assert (H2 : (2 * (n / 10) <= n)%N).
  { pose proof (N.Div0.mul_div_le n 10). lia. }
  apply N.log2_le_mono in H2. rewrite N.log2_double in H2 by exact Hm. lia.
Qed.

Lemma text_fuel_enough f1 f2 n :
  (N.to_nat (N.log2 n) < f1)%nat -> (N.to_nat (N.log2 n) < f2)%nat ->
  text_fuel f1 n = text_fuel f2 n.
Proof.
  revert f2 n. induction f1 as [|f1 IH]; intros [|f2] n H1 H2; try lia.
  simpl. destruct (N.ltb_spec n 10) as [Hlt|Hge]; [reflexivity|].
  f_equal. pose proof (log2_div10 n Hge). apply IH; lia.
Qed.

Lemma text_fuel_S f n :
  text_fuel (S f) n
  = (if (n <? 10)%N then "" else text_fuel f (n / 10))
    +:+ String (digit (n mod 10)) "".
Proof. reflexivity. Qed.

Lemma text_of_N_small n :
  (n < 10)%N -> text_of_N n = String (digit n) "".
Proof.
  intros Hn. unfold text_of_N. rewrite text_fuel_S.
  rewrite (proj2 (N.ltb_lt n 10) Hn), N.mod_small by exact Hn. reflexivity.
Qed.

Lemma text_of_N_step n :
  (10 <= n)%N ->
  text_of_N n = text_of_N (n / 10) +:+ String (digit (n mod 10)) "".
Proof.
  intros Hn. unfold text_of_N.
  rewrite (text_fuel_S (N.to_nat (N.log2 n)) n).
  rewrite (proj2 (N.ltb_ge n 10) Hn). f_equal.
  pose proof (log2_div10 n Hn). apply text_fuel_enough; lia.
Qed.

(** Induction along the digits of a number. *)
Lemma N_digits_ind (P : N -> Prop) :
  (forall n, (n < 10)%N -> P n) ->
  (forall n, (10 <= n)%N -> P (n / 10)%N -> P n) ->
  forall n, P n.
Proof.
  intros Hsmall Hstep.
  assert (H : forall f n, (N.to_nat (N.log2 n) < f)%nat -> P n).
  { induction f as [|f IH]; intros n Hf; [lia|].
    destruct (N.lt_ge_cases n 10) as [Hlt|Hge]; [by apply Hsmall|].
    apply Hstep; [exact Hge|]. apply IH.
    pose proof (log2_div10 n Hge). lia. }
  intros n. apply (H (S (N.to_nat (N.log2 n)))). lia.
Qed.

Lemma list_ascii_of_string_append a b :
  list_ascii_of_string (a +:+ b)
  = (list_ascii_of_string a ++ list_ascii_of_string b)%list.
Proof.
  induction a as [|c a IH]; [reflexivity|].
  rewrite append_cons. simpl. by rewrite IH.
Qed.

Lemma decimal_value_snoc a c :
  decimal_value (a +:+ String c "")
  = (10 * decimal_value a + (N_of_ascii c - 48))%N.
Proof.
  unfold decimal_value.
  rewrite list_ascii_of_string_append, fold_left_app. reflexivity.
Qed.

Lemma N_of_digit d : (d < 10)%N -> (N_of_ascii (digit d) - 48 = d)%N.
Proof.
  intros Hd. unfold digit. rewrite N_ascii_embedding by lia. lia.
Qed.

(** Reading back the text of a number gives the number. *)
Lemma decimal_value_text n : decimal_value (text_of_N n) = n.
Proof.
  induction n as [n Hn | n Hn IH] using N_digits_ind.
  - rewrite text_of_N_small by exact Hn.
    unfold decimal_value. simpl. rewrite N_of_digit by exact Hn. lia.
  - rewrite text_of_N_step, decimal_value_snoc, IH by exact Hn.
    rewrite N_of_digit by (apply N.mod_lt; lia).
    symmetry. apply N.div_mod'.
Qed.

Lemma text_of_N_length_le n k :
  (n < 10 ^ N.of_nat (S k))%N -> String.length (text_of_N n) <= S k.
Proof.
  revert k. induction n as [n Hn | n Hn IH] using N_digits_ind; intros k Hk.
  - rewrite text_of_N_small by exact Hn. simpl. lia.
  - rewrite text_of_N_step, length_append by exact Hn. simpl.
    destruct k as [|k]; [simpl in Hk; lia|].
    rewrite Nat2N.inj_succ, N.pow_succ_r' in Hk.
    assert ((n / 10 < 10 ^ N.of_nat (S k))%N)
      by (apply N.Div0.div_lt_upper_bound; lia).
    specialize (IH k ltac:(assumption)). lia.
Qed.

Lemma text_of_N_length_ge n k :
  (10 ^ N.of_nat k <= n)%N -> S k <= String.length (text_of_N n).
Proof.
  revert k. induction n as [n Hn | n Hn IH] using N_digits_ind; intros k Hk.
  - rewrite text_of_N_small by exact Hn. simpl.
    destruct k as [|k]; [lia|].
    rewrite Nat2N.inj_succ, N.pow_succ_r' in Hk.
    assert ((0 < 10 ^ N.of_nat k)%N) by (apply N.neq_0_lt_0, N.pow_nonzero; lia).
    lia.
  - rewrite text_of_N_step, length_append by exact Hn. simpl.
    destruct k as [|k]; [lia|].
    rewrite Nat2N.inj_succ, N.pow_succ_r' in Hk.
    assert ((10 ^ N.of_nat k <= n / 10)%N)
      by (apply N.div_le_lower_bound; lia).
    specialize (IH k ltac:(assumption)). lia.
Qed.

Lemma decimal_value_zero s : decimal_value (String "0" s) = decimal_value s.
Proof. reflexivity. Qed.

Lemma decimal_value_zero_fill n cur s :
  cur = "" \/ cur = "0" ->
  decimal_value (fill_cycle n "0" cur +:+ s) = decimal_value s.
Proof.
  revert cur. induction n as [|n IH]; intros cur Hcur; [reflexivity|].
  destruct Hcur as [-> | ->]; simpl; rewrite append_cons, decimal_value_zero;
    apply IH; auto.
Qed.

(** The serial part of a membership number. *)
Lemma serial_value count :
  (count < 9999)%N ->
  decimal_value (lpad (text_of_N (count + 1)) 4 "0") = (count + 1)%N.
Proof.
  intros Hc. unfold lpad.
  pose proof (text_of_N_length_le (count + 1) 3 ltac:(simpl; lia)) as Hlen.
  destruct (Nat.ltb_spec (String.length (text_of_N (count + 1))) 4).
  - rewrite decimal_value_zero_fill by auto. apply decimal_value_text.
  - rewrite string_take_all by lia. apply decimal_value_text.
Qed.

Lemma serial_length count :
  String.length (lpad (text_of_N (count + 1)) 4 "0") = 4.
Proof. apply lpad_cases. discriminate. Qed.

(** ** [generate_membership_number] *)

Lemma membership_number_code_full y1 y2 c1 c2 :
  (c1 < 9999)%N -> (c2 < 9999)%N ->
  decimal_value (lpad (text_of_N (c1 + 1)) 4 "0") = (c1 + 1)%N
  /\ (membership_number_text y1 c1 = membership_number_text y2 c2 ->
      y1 = y2 /\ c1 = c2).
Proof.
  intros H1 H2. split; [by apply serial_value|].
  unfold membership_number_text. intros H.
  apply append_inv_head in H.
  apply append_inj_tail in H as [Hy Hs].
  - apply append_inv_head in Hs.
    apply (f_equal decimal_value) in Hy, Hs.
    rewrite !decimal_value_text in Hy.
    rewrite !serial_value in Hs by assumption. split; [exact Hy | lia].
  - rewrite !length_append, !serial_length. reflexivity.
Qed.

Lemma membership_number_code y1 y2 c1 c2 :
  membership_number_text y1 c1 = membership_number_text y2 c2 ->
  (c1 < 9999)%N -> (c2 < 9999)%N -> y1 = y2 /\ c1 = c2.
Proof.
  intros H H1 H2. by apply (membership_number_code_full y1 y2 c1 c2).
Qed.

(** X8. A membership number is always 'NDC-', the year, a dash and
    exactly four more characters, however many profiles there are; and
    those four characters are the same whatever the year: the serial is
    the count of all numbered profiles and does not restart in a new
    year. *)
Theorem membership_number_format profiles :
  exists serial,
    String.length serial = 4
    /\ forall year,
         generate_membership_number year profiles
         = "NDC-" +:+ text_of_N year +:+ "-" +:+ serial
         /\ ((1000 <= year < 10000)%N ->
             String.length (generate_membership_number year profiles) = 13).
Proof.
  exists (lpad (text_of_N (numbered_profiles profiles + 1)) 4 "0").
  split; [apply serial_length|]. intros year. split; [reflexivity|].
  intros Hy. unfold generate_membership_number, membership_number_text.
  rewrite !length_append, serial_length.
  pose proof (text_of_N_length_le year 3 ltac:(simpl; lia)).
  pose proof (text_of_N_length_ge year 3 ltac:(simpl; lia)).
  simpl. lia.
Qed.

Lemma membership_number_format_witness :
  String.length (generate_membership_number 2024 suspended_esi) = 13
  /\ generate_membership_number 2024 suspended_esi = "NDC-2024-0002"
  /\ generate_membership_number 2025 suspended_esi = "NDC-2025-0002".
Proof.
  split; [|split; reflexivity].
  destruct (membership_number_format suspended_esi) as (serial & _ & H).
  apply (H 2024%N). lia.
Defined.

(** X9. Below 9999 numbered profiles the membership number is a faithful
    code of the year and of the count: its last four characters read back
    as count + 1, and two numbers are equal only if they were issued in
    the same year at the same count. *)
Theorem membership_number_injective y1 y2 c1 c2 :
  (c1 < 9999)%N -> (c2 < 9999)%N ->
  decimal_value (lpad (text_of_N (c1 + 1)) 4 "0") = (c1 + 1)%N
  /\ (membership_number_text y1 c1 = membership_number_text y2 c2 ->
      y1 = y2 /\ c1 = c2).
Proof.
  intros H1 H2. split; [by apply serial_value|].
  unfold membership_number_text. intros H.
  apply append_inv_head in H.
  apply append_inj_tail in H as [Hy Hs].
  - apply append_inv_head in Hs.
    apply (f_equal decimal_value) in Hy, Hs.
    rewrite !decimal_value_text in Hy.
    rewrite !serial_value in Hs by assumption. split; [exact Hy | lia].
  - rewrite !length_append, !serial_length. reflexivity.
Qed.

Lemma membership_number_injective_witness :
  membership_number_text 2024 41 = "NDC-2024-0042"
  /\ decimal_value (lpad (text_of_N (41 + 1)) 4 "0") = 42%N.
Proof.
  split; [reflexivity|].
  apply (membership_number_injective 2024 2024 41 41); reflexivity.
Defined.

Lemma string_take_text_of_N n :
  (1000 <= n)%N ->
  exists j, (1000 <= j < 10000)%N
            /\ string_take 4 (text_of_N n) = text_of_N j.
Proof.
  induction n as [n Hn | n Hn IH] using N_digits_ind; intros Hbig.
  - lia.
  - destruct (N.lt_ge_cases n 10000) as [Hlt|Hge].
    + exists n. split; [lia|]. apply string_take_all.
      apply (text_of_N_length_le n 3). simpl. lia.
    + assert (Hq : (1000 <= n / 10)%N)
        by (apply N.div_le_lower_bound; lia).
      destruct (IH Hq) as (j & Hj & Htake). exists j. split; [exact Hj|].
      rewrite text_of_N_step by exact Hn.
      rewrite string_take_append; [exact Htake|].
      apply (text_of_N_length_ge (n / 10) 3). simpl. lia.
Qed.

(** X10. From the 9999th numbered profile on, [LPAD] cuts the count to
    its first four digits: the number generated is one that was already
    generated, in the same year, at some count below 9999. *)
Theorem membership_number_wraps count :
  (9999 <= count)%N ->
  exists earlier,
    (earlier < 9999)%N
    /\ forall year,
         membership_number_text year count
         = membership_number_text year earlier.
Proof.
  intros Hc.
  destruct (string_take_text_of_N (count + 1) ltac:(lia)) as (j & Hj & Htake).
  exists (j - 1)%N. split; [lia|]. intros year.
  unfold membership_number_text. do 3 f_equal.
  replace (j - 1 + 1)%N with j by lia.
  pose proof (text_of_N_length_ge (count + 1) 3 ltac:(simpl; lia)) as Hlong.
  pose proof (text_of_N_length_ge j 3 ltac:(simpl; lia)) as Hj4.
  pose proof (text_of_N_length_le j 3 ltac:(simpl; lia)) as Hj4'.
  rewrite (proj2 (proj2 (lpad_cases (text_of_N (count + 1)) 4 "0"
                           ltac:(discriminate))) Hlong).
  rewrite (proj2 (proj2 (lpad_cases (text_of_N j) 4 "0"
                           ltac:(discriminate))) Hj4).
  rewrite Htake. symmetry. apply string_take_all. lia.
Qed.

Lemma membership_number_wraps_witness :
  membership_number_text 2024 9999 = "NDC-2024-1000"
  /\ membership_number_text 2024 999 = "NDC-2024-1000"
  /\ exists earlier,
       (earlier < 9999)%N
       /\ forall year,
            membership_number_text year 12344
            = membership_number_text year earlier.
Proof.
  split; [reflexivity|]. split; [reflexivity|].
  apply (membership_number_wraps 12344). lia.
Defined.

(** ** [handle_new_user] *)

Lemma numbered_profiles_insert profiles id p :
  profiles !! id = None ->
  is_Some (Profile.membership_number p) ->
  numbered_profiles (<[id := p]> profiles) = (numbered_profiles profiles + 1)%N.
Proof.
  intros Hfresh Hnum. unfold numbered_profiles.
  rewrite map_filter_insert_True by exact Hnum.
  rewrite map_size_insert_None by (by apply map_lookup_filter_None_2; left).
  lia.
Qed.

Lemma handle_new_user_Ok year now profiles NEW name :
  coalesce (raw_user_meta_data NEW !! "full_name") (au_email NEW) = Some name ->
  profiles !! au_id NEW = None ->
  ~ number_taken profiles (generate_membership_number year profiles) ->
  handle_new_user year now profiles NEW
  = Ok (<[au_id NEW :=
            Profile.mk name None None None None
              (Some (generate_membership_number year profiles))
              Profile.not_approved
              (Some (is_not_null (email_confirmed_at NEW)))
              (Some now) (Some now)]> profiles).
Proof.
  intros Hname Hfresh Hfree. unfold handle_new_user, insert_profile.
  rewrite Hname, Hfresh.
  destruct (decide (is_Some None)) as [[? ?]|_]; [discriminate|].
  destruct (decide (number_taken _ _)); [contradiction | reflexivity].
Qed.

Lemma handle_new_user_taken year now profiles NEW name :
  coalesce (raw_user_meta_data NEW !! "full_name") (au_email NEW) = Some name ->
  number_taken profiles (generate_membership_number year profiles) ->
  handle_new_user year now profiles NEW = Raise unique_violation.
Proof.
  intros Hname Htaken. unfold handle_new_user, insert_profile.
  rewrite Hname. destruct (decide (is_Some _)); [reflexivity|].
  destruct (decide (number_taken _ _)); [reflexivity | contradiction].
Qed.

Lemma sequence_number_free year profiles :
  issued_in_sequence profiles ->
  (numbered_profiles profiles < 9999)%N ->
  ~ number_taken profiles (generate_membership_number year profiles).
Proof.
  intros Hseq Hn (id & p & Hl & Hnum).
  destruct (Hseq id p Hl) as (y & k & Hk & Hnum').
  assert (Heq : membership_number_text year (numbered_profiles profiles)
                = membership_number_text y k)
    by (unfold generate_membership_number in Hnum; congruence).
  apply membership_number_code in Heq as [_ Heq]; lia.
Qed.

(** X11. Registrations that follow one another without a deletion never
    collide below 9999 members: on a table whose numbers were issued in
    sequence, [handle_new_user] for a new id with a name or an e-mail
    succeeds, adds exactly one profile, in state 'not_approved' with the
    generated number, leaves every other profile as it was, and the
    table is again in sequence. *)
Theorem registration_in_sequence year now profiles NEW name :
  issued_in_sequence profiles ->
  (numbered_profiles profiles < 9999)%N ->
  profiles !! au_id NEW = None ->
  coalesce (raw_user_meta_data NEW !! "full_name") (au_email NEW) = Some name ->
  exists profiles' p,
    handle_new_user year now profiles NEW = Ok profiles'
    /\ issued_in_sequence profiles'
    /\ numbered_profiles profiles' = (numbered_profiles profiles + 1)%N
    /\ profiles' !! au_id NEW = Some p
    /\ Profile.full_name p = name
    /\ Profile.status p = Profile.not_approved
    /\ Profile.membership_number p
       = Some (membership_number_text year (numbered_profiles profiles))
    /\ forall k, k <> au_id NEW -> profiles' !! k = profiles !! k.
Proof.
  intros Hseq Hn Hfresh Hname.
  pose proof (sequence_number_free year profiles Hseq Hn) as Hfree.
  eexists _, _. split; [by apply handle_new_user_Ok|].
  assert (Hcount : forall p, is_Some (Profile.membership_number p) ->
            numbered_profiles (<[au_id NEW := p]> profiles)
            = (numbered_profiles profiles + 1)%N)
    by (intros; by apply numbered_profiles_insert).
  split; [|split; [apply Hcount; simpl; eauto|]].
  - intros k p Hl. rewrite Hcount by (simpl; eauto).
    apply lookup_insert_Some in Hl as [[<- <-] | [Hne Hl]].
    + exists year, (numbered_profiles profiles). split; [lia | reflexivity].
    + destruct (Hseq k p Hl) as (y & c & Hc & Hnum). exists y, c.
      split; [lia | exact Hnum].
  - split; [apply lookup_insert_eq|]. repeat split.
    intros k Hk. by apply lookup_insert_ne.
Qed.

Lemma registration_in_sequence_witness :
  exists profiles' p,
    handle_new_user 2024 50 ∅ ama = Ok profiles'
    /\ issued_in_sequence profiles'
    /\ numbered_profiles profiles' = (numbered_profiles ∅ + 1)%N
    /\ profiles' !! au_id ama = Some p
    /\ Profile.full_name p = "Ama Mensah"
    /\ Profile.status p = Profile.not_approved
    /\ Profile.membership_number p
       = Some (membership_number_text 2024 (numbered_profiles ∅))
    /\ forall k, k <> au_id ama ->
                 profiles' !! k = (∅ : gmap N Profile.t) !! k.
Proof.
  apply (registration_in_sequence 2024 50%Z ∅ ama "Ama Mensah").
  - intros id p Hl. rewrite lookup_empty in Hl. discriminate.
  - reflexivity.
  - reflexivity.
  - reflexivity.
Defined.

Lemma numbered_profiles_delete profiles id p :
  profiles !! id = Some p ->
  is_Some (Profile.membership_number p) ->
  (numbered_profiles (delete id profiles) + 1)%N = numbered_profiles profiles.
Proof.
  intros Hl Hnum. unfold numbered_profiles.
  rewrite map_filter_delete.
  assert (Hin : filter (fun kv : N * Profile.t =>
                          is_Some (Profile.membership_number kv.2)) profiles
                !! id = Some p)
    by (by apply map_lookup_filter_Some_2).
  rewrite map_size_delete_Some by eauto.
  assert (size (filter (fun kv : N * Profile.t =>
                          is_Some (Profile.membership_number kv.2)) profiles)
          <> 0).
  { intros H0. apply map_size_empty_inv in H0. rewrite H0 in Hin.
    rewrite lookup_empty in Hin. discriminate. }
  lia.
Qed.

Lemma issued_in_sequence_insert profiles id p year :
  issued_in_sequence profiles ->
  profiles !! id = None ->
  Profile.membership_number p
  = Some (membership_number_text year (numbered_profiles profiles)) ->
  issued_in_sequence (<[id := p]> profiles).
Proof.
  intros Hseq Hfresh Hnum k q Hl.
  rewrite numbered_profiles_insert by (rewrite ?Hnum; eauto).
  apply lookup_insert_Some in Hl as [[<- <-] | [Hne Hl]].
  - exists year, (numbered_profiles profiles). split; [lia | exact Hnum].
  - destruct (Hseq k q Hl) as (y & c & Hc & Hq). exists y, c.
    split; [lia | exact Hq].
Qed.

(** X12. A deletion breaks the numbering. On a table issued in sequence
    (fewer than 9998 profiles), let two new users register one after the
    other and delete the first of the two: the count falls back by one,
    the next registration of the same year is given the number the second
    user already holds, and [handle_new_user] raises a unique violation
    whoever registers. *)
Theorem registration_after_deletion_collides
    year_a year now_a now_b now_c profiles ua ub uc name_a name_b name_c :
  issued_in_sequence profiles ->
  (numbered_profiles profiles < 9998)%N ->
  profiles !! au_id ua = None ->
  profiles !! au_id ub = None ->
  au_id ua <> au_id ub ->
  coalesce (raw_user_meta_data ua !! "full_name") (au_email ua) = Some name_a ->
  coalesce (raw_user_meta_data ub !! "full_name") (au_email ub) = Some name_b ->
  coalesce (raw_user_meta_data uc !! "full_name") (au_email uc) = Some name_c ->
  exists m1 m2,
    handle_new_user year_a now_a profiles ua = Ok m1
    /\ handle_new_user year now_b m1 ub = Ok m2
    /\ handle_new_user year now_c (delete_user (au_id ua) m2) uc
       = Raise unique_violation.
Proof.
  intros Hseq Hn Ha Hb Hab Hna Hnb Hnc.
  eexists _, _. split.
  { apply (handle_new_user_Ok _ _ _ _ name_a); try assumption.
    apply sequence_number_free; [exact Hseq | lia]. }
  set (pa := Profile.mk name_a _ _ _ _ _ _ _ _ _).
  assert (Hseq1 : issued_in_sequence (<[au_id ua := pa]> profiles))
    by (by apply (issued_in_sequence_insert _ _ _ year_a)).
  assert (Hn1 : numbered_profiles (<[au_id ua := pa]> profiles)
                = (numbered_profiles profiles + 1)%N)
    by (apply numbered_profiles_insert; [exact Ha | subst pa; simpl; eauto]).
  assert (Hb1 : <[au_id ua := pa]> profiles !! au_id ub = None)
    by (rewrite lookup_insert_ne by exact Hab; exact Hb).
  split.
  { apply (handle_new_user_Ok _ _ _ _ name_b); try assumption.
    apply sequence_number_free; [exact Hseq1 | lia]. }
  set (pb := Profile.mk name_b _ _ _ _ _ _ _ _ _).
  apply (handle_new_user_taken _ _ _ _ name_c); [exact Hnc|].
  exists (au_id ub), pb. unfold delete_user. split.
  - rewrite lookup_delete_ne by exact Hab. apply lookup_insert_eq.
  - subst pb. simpl. unfold generate_membership_number. do 2 f_equal.
    assert (Hn2 : numbered_profiles
                    (<[au_id ub := Profile.mk name_b None None None None
                         (Some (membership_number_text year
                                  (numbered_profiles
                                     (<[au_id ua := pa]> profiles))))
                         Profile.not_approved
                         (Some (is_not_null (email_confirmed_at ub)))
                         (Some now_b) (Some now_b)]>
                       (<[au_id ua := pa]> profiles))
                  = (numbered_profiles (<[au_id ua := pa]> profiles) + 1)%N)
      by (apply numbered_profiles_insert; [exact Hb1 | simpl; eauto]).
    pose proof (numbered_profiles_delete
                  (<[au_id ub := Profile.mk name_b None None None None
                       (Some (membership_number_text year
                                (numbered_profiles
                                   (<[au_id ua := pa]> profiles))))
                       Profile.not_approved
                       (Some (is_not_null (email_confirmed_at ub)))
                       (Some now_b) (Some now_b)]>
                     (<[au_id ua := pa]> profiles))
                  (au_id ua) pa) as Hdel.
    rewrite Hn2 in Hdel. symmetry. apply N.add_cancel_r with (p := 1%N).
    apply Hdel.
    + rewrite lookup_insert_ne by congruence. apply lookup_insert_eq.
    + subst pa. simpl. eauto.
Qed.

Lemma registration_after_deletion_collides_witness :
  exists m1 m2,
    handle_new_user 2024 50 ∅ ama = Ok m1
    /\ handle_new_user 2024 60 m1 kofi = Ok m2
    /\ handle_new_user 2024 70 (delete_user (au_id ama) m2) esi
       = Raise unique_violation.
Proof.
  apply (registration_after_deletion_collides 2024 2024 50%Z 60%Z 70%Z ∅
           ama kofi esi "Ama Mensah" "kofi@example.org" "esi@example.org");
    try reflexivity.
  - intros id p Hl. rewrite lookup_empty in Hl. discriminate.
  - discriminate.
Defined.

Lemma handle_new_user_Ok_inv year now profiles NEW profiles' :
  handle_new_user year now profiles NEW = Ok profiles' ->
  exists name,
    coalesce (raw_user_meta_data NEW !! "full_name") (au_email NEW) = Some name
    /\ profiles !! au_id NEW = None
    /\ profiles'
       = <[au_id NEW :=
             Profile.mk name None None None None
               (Some (generate_membership_number year profiles))
               Profile.not_approved
               (Some (is_not_null (email_confirmed_at NEW)))
               (Some now) (Some now)]> profiles.
Proof.
  unfold handle_new_user, insert_profile.
  destruct (coalesce _ _) as [name|]; [|discriminate].
  destruct (decide (is_Some _)) as [|Hfresh]; [discriminate|].
  destruct (decide (number_taken _ _)); [discriminate|].
  intros [= <-]. exists name. split; [reflexivity|]. split; [|reflexivity].
  destruct (profiles !! au_id NEW) eqn:E; [|reflexivity].
  exfalso. apply Hfresh. eauto.
Qed.

Lemma handle_new_user_Ok_free year now profiles NEW profiles' :
  handle_new_user year now profiles NEW = Ok profiles' ->
  ~ number_taken profiles (generate_membership_number year profiles).
Proof.
  unfold handle_new_user, insert_profile.
  destruct (coalesce _ _) as [name|]; [|discriminate].
  destruct (decide (is_Some _)); [discriminate|].
  destruct (decide (number_taken _ _)); [discriminate | auto].
Qed.

(** ** [handle_email_verification] *)

(** X13. Whatever the old and new user rows, the verification trigger
    creates and deletes no profile, touches no profile but the updated
    user's, and changes neither a name nor a membership number. A status
    is kept, or moves from 'not_approved' to 'pending_approval'; nothing
    else: verification alone never approves anybody and never lifts a
    suspension or an expiry. *)
Theorem email_verification_effect now profiles OLD NEW k :
  (handle_email_verification now profiles OLD NEW !! k = None
   <-> profiles !! k = None)
  /\ forall p',
       handle_email_verification now profiles OLD NEW !! k = Some p' ->
       exists p,
         profiles !! k = Some p
         /\ (k <> au_id NEW -> p' = p)
         /\ Profile.full_name p' = Profile.full_name p
         /\ Profile.membership_number p' = Profile.membership_number p
         /\ (Profile.status p' = Profile.status p
             \/ (Profile.status p = Profile.not_approved
                 /\ Profile.status p' = Profile.pending_approval)).
Proof.
  unfold handle_email_verification.
  destruct (is_not_null (email_confirmed_at NEW)
            && negb (is_not_null (email_confirmed_at OLD))).
  - split.
    + rewrite lookup_alter_None. reflexivity.
    + intros p' Hl. destruct (decide (k = au_id NEW)) as [->|Hne].
      * rewrite lookup_alter_eq in Hl.
        destruct (profiles !! au_id NEW) as [p|]; [|discriminate].
        injection Hl as <-. exists p. split; [reflexivity|].
        split; [congruence|]. split; [reflexivity|]. split; [reflexivity|].
        simpl. destruct (Profile.status p); auto.
      * rewrite lookup_alter_ne in Hl by congruence. exists p'. auto 6.
  - split; [reflexivity|]. intros p' Hl. exists p'. auto 6.
Qed.

Lemma email_verification_effect_witness :
  handle_email_verification 95 suspended_esi
    (mkAuthUser 3 (Some "esi@example.org") ∅ None) esi !! 4%N = None
  /\ exists p' p,
       handle_email_verification 95 suspended_esi
         (mkAuthUser 3 (Some "esi@example.org") ∅ None) esi !! 3%N = Some p'
       /\ suspended_esi !! 3%N = Some p
       /\ Profile.status p' = Profile.suspended
       /\ Profile.email_verified p' = Some true.
Proof.
  split.
  - apply (proj1 (email_verification_effect 95%Z suspended_esi
                    (mkAuthUser 3 (Some "esi@example.org") ∅ None) esi 4%N)).
    reflexivity.
  - destruct (handle_email_verification 95 suspended_esi
                (mkAuthUser 3 (Some "esi@example.org") ∅ None) esi !! 3%N)
      as [p'|] eqn:E; [|vm_compute in E; discriminate].
    destruct (proj2 (email_verification_effect 95%Z suspended_esi
                       (mkAuthUser 3 (Some "esi@example.org") ∅ None) esi 3%N)
                p' E) as (p & Hl & _ & _ & _ & _).
    exists p', p. split; [reflexivity|]. split; [exact Hl|].
    vm_compute in E. injection E as <-. split; reflexivity.
Defined.

(** X14. Registration followed by confirmation: a user inserted with an
    unconfirmed address gets a profile in 'not_approved'; when the address
    is confirmed later, the profile is in 'pending_approval' with
    [email_verified = true], the membership number unchanged. *)
Theorem register_then_verify year now now' profiles NEW NEW' profiles1 :
  handle_new_user year now profiles NEW = Ok profiles1 ->
  email_confirmed_at NEW = None ->
  au_id NEW' = au_id NEW ->
  email_confirmed_at NEW' <> None ->
  exists p,
    handle_email_verification now' profiles1 NEW NEW' !! au_id NEW = Some p
    /\ Profile.status p = Profile.pending_approval
    /\ Profile.email_verified p = Some true
    /\ Profile.membership_number p
       = Some (generate_membership_number year profiles).
Proof.
  intros Hreg Hold Hid Hnew.
  apply handle_new_user_Ok_inv in Hreg as (name & _ & _ & ->).
  unfold handle_email_verification. rewrite Hold, Hid.
  destruct (email_confirmed_at NEW'); [|congruence]. simpl.
  rewrite lookup_alter_eq, lookup_insert_eq. simpl. eauto.
Qed.

Lemma register_then_verify_witness :
  exists p,
    handle_email_verification 80
      (<[1%N := Profile.mk "Ama Mensah" None None None None
                  (Some "NDC-2024-0001") Profile.not_approved (Some false)
                  (Some 50%Z) (Some 50%Z)]> ∅)
      ama (mkAuthUser 1 (Some "ama@example.org") ∅ (Some 80%Z)) !! au_id ama
    = Some p
    /\ Profile.status p = Profile.pending_approval
    /\ Profile.email_verified p = Some true
    /\ Profile.membership_number p
       = Some (generate_membership_number 2024 ∅).
Proof.
  apply (register_then_verify 2024 50%Z 80%Z ∅ ama
           (mkAuthUser 1 (Some "ama@example.org") ∅ (Some 80%Z)));
    [reflexivity | reflexivity | reflexivity | discriminate].
Defined.



(** * The revised registration trigger *)

Lemma insert_profile_Ok now id name phone address dob num verified profiles :
  profiles !! id = None ->
  ~ number_taken profiles num ->
  insert_profile now id (Some name) phone address dob num verified profiles
  = Ok (<[id := Profile.mk name phone address dob None (Some num)
                  Profile.not_approved (Some verified) (Some now) (Some now)]>
          profiles).
Proof.
  intros Hfresh Hfree. unfold insert_profile. rewrite Hfresh.
  destruct (decide (is_Some None)) as [[? ?]|_]; [discriminate|].
  destruct (decide (number_taken _ _)); [contradiction | reflexivity].
Qed.

(** Whether the insertion succeeds, and what it raises, does not depend
    on the optional columns. *)
Lemma insert_profile_outcome now id name phone address dob num verified profiles :
  match insert_profile now id name None None None num verified profiles with
  | Ok _ =>
      exists n, name = Some n /\ profiles !! id = None
                /\ ~ number_taken profiles num
  | Raise e =>
      insert_profile now id name phone address dob num verified profiles
      = Raise e
  end.
Proof.
  unfold insert_profile. destruct name as [n|]; [|reflexivity].
  destruct (decide (is_Some (profiles !! id))) as [|Hfresh]; [reflexivity|].
  destruct (decide (number_taken profiles num)); [reflexivity|].
  exists n. split; [reflexivity|]. split; [|assumption].
  destruct (profiles !! id) eqn:E; [|reflexivity]. exfalso. apply Hfresh. eauto.
Qed.

(** X16. The revised trigger is all or nothing, and a bad branch costs
    the profile: when the sign-up names a branch whose text is not a
    uuid, or a branch that does not exist, the trigger returns normally
    with a warning and the tables exactly as they were, although the
    profile insertion by itself succeeds (the original trigger creates
    the profile on the same input). *)
Theorem revised_trigger_bad_branch
    uuid_in date_in year now new_id st NEW t profiles' :
  handle_new_user year now (user_profiles st) NEW = Ok profiles' ->
  raw_user_meta_data NEW !! "branch_id" = Some t ->
  t <> "" ->
  (forall id m, memberships st !! id = Some m ->
                is_Some (branches st !! Membership.branch_id m)) ->
  memberships st !! new_id = None ->
  (uuid_in t = None ->
   handle_new_user_revised uuid_in date_in year now new_id st NEW
   = (st, Some invalid_text_representation))
  /\ (forall b, uuid_in t = Some b -> branches st !! b = None ->
      handle_new_user_revised uuid_in date_in year now new_id st NEW
      = (st, Some foreign_key_violation)).
Proof.
  intros Horig Hmeta Ht Hfk Hnew.
  assert (Hnull : nullif_empty (raw_user_meta_data NEW !! "branch_id") = Some t).
  { rewrite Hmeta. simpl. destruct (String.eqb_spec t ""); congruence. }
  split.
  - intros Hbad. unfold handle_new_user_revised, revised_body, user_branch_id.
    rewrite Hnull, Hbad. reflexivity.
  - intros b Hb Hmissing.
    pose proof (handle_new_user_Ok_free _ _ _ _ _ Horig) as Hfree.
    apply handle_new_user_Ok_inv in Horig as (name & Hname & Hfresh & _).
    unfold handle_new_user_revised, revised_body, user_branch_id.
    rewrite Hnull, Hb, Hname.
    rewrite insert_profile_Ok by assumption.
    unfold insert_membership. cbn [memberships branches].
    destruct (decide (membership_exists _ _ _)) as [(id & m & Hl & _ & Hmb)|_].
    { destruct (Hfk id m Hl) as [br Hbr]. congruence. }
    rewrite Hnew, Hmissing.
    destruct (decide (is_Some None)) as [[? ?]|_]; [discriminate|].
    reflexivity.
Qed.

Lemma revised_trigger_bad_branch_witness :
  handle_new_user 2024 50 (user_profiles one_branch) abena
  = Ok (<[6%N := Profile.mk "Abena Osei" None None None None
                   (Some "NDC-2024-0001") Profile.not_approved (Some false)
                   (Some 50%Z) (Some 50%Z)]> ∅)
  /\ handle_new_user_revised decimal_uuid (fun _ => None) 2024 50 100
       one_branch abena
     = (one_branch, Some foreign_key_violation).
Proof.
  split; [reflexivity|].
  refine (proj2 (revised_trigger_bad_branch decimal_uuid (fun _ => None)
                   2024 50%Z 100%N one_branch abena "9" _
                   eq_refl eq_refl _ _ eq_refl) 9%N eq_refl eq_refl).
  - discriminate.
  - intros id m Hl. simpl in Hl. rewrite lookup_empty in Hl. discriminate.
Defined.

(** X17. Without a branch in the metadata (absent or empty) the revised
    trigger does what the original does, with the errors swallowed: when
    the original raises, the tables stay as they were and the warning
    carries the same error; when the original succeeds, the one change is
    the new profile, the same as the original's but for phone, address
    and date of birth, which are taken from the metadata. *)
Theorem revised_trigger_without_branch
    uuid_in date_in year now new_id st NEW :
  nullif_empty (raw_user_meta_data NEW !! "branch_id") = None ->
  match handle_new_user year now (user_profiles st) NEW with
  | Raise e =>
      handle_new_user_revised uuid_in date_in year now new_id st NEW
      = (st, Some e)
  | Ok profiles' =>
      exists p,
        profiles' !! au_id NEW = Some p
        /\ handle_new_user_revised uuid_in date_in year now new_id st NEW
           = (mkMembers
                (<[au_id NEW :=
                     Profile.mk (Profile.full_name p)
                       (raw_user_meta_data NEW !! "phone")
                       (raw_user_meta_data NEW !! "address")
                       (user_dob date_in NEW)
                       (Profile.avatar_url p) (Profile.membership_number p)
                       (Profile.status p) (Profile.email_verified p)
                       (Profile.created_at p) (Profile.updated_at p)]>
                   (user_profiles st))
                (memberships st) (branches st),
              None)
  end.
Proof.
  intros Hnull.
  unfold handle_new_user_revised, revised_body, user_branch_id.
  rewrite Hnull. unfold handle_new_user, insert_profile.
  destruct (coalesce _ _) as [name|]; [|reflexivity].
  destruct (decide (is_Some _)); [reflexivity|].
  destruct (decide (number_taken _ _)); [reflexivity|].
  eexists. split; [apply lookup_insert_eq | reflexivity].
Qed.

Lemma revised_trigger_without_branch_witness :
  match handle_new_user 2024 60 (user_profiles one_branch) kofi with
  | Raise e =>
      handle_new_user_revised decimal_uuid (fun _ => None) 2024 60 100
        one_branch kofi
      = (one_branch, Some e)
  | Ok profiles' =>
      exists p,
        profiles' !! au_id kofi = Some p
        /\ handle_new_user_revised decimal_uuid (fun _ => None) 2024 60 100
             one_branch kofi
           = (mkMembers
                (<[au_id kofi :=
                     Profile.mk (Profile.full_name p)
                       (raw_user_meta_data kofi !! "phone")
                       (raw_user_meta_data kofi !! "address")
                       (user_dob (fun _ => None) kofi)
                       (Profile.avatar_url p) (Profile.membership_number p)
                       (Profile.status p) (Profile.email_verified p)
                       (Profile.created_at p) (Profile.updated_at p)]>
                   (user_profiles one_branch))
                (memberships one_branch) (branches one_branch),
              None)
  end.
Proof.
  apply (revised_trigger_without_branch decimal_uuid (fun _ => None)
           2024 60%Z 100%N one_branch kofi).
  reflexivity.
Defined.

(** X18. With a branch that exists, on an input the original trigger
    accepts, the revised trigger creates the profile and exactly one
    membership: the user's, in that branch, 'pending', no card issued.
    Every other profile and membership is untouched and [branches] is
    not written. *)
Theorem revised_trigger_with_branch
    uuid_in date_in year now new_id st NEW t b profiles' :
  handle_new_user year now (user_profiles st) NEW = Ok profiles' ->
  raw_user_meta_data NEW !! "branch_id" = Some t ->
  t <> "" ->
  uuid_in t = Some b ->
  is_Some (branches st !! b) ->
  ~ membership_exists (memberships st) (au_id NEW) b ->
  memberships st !! new_id = None ->
  exists st' p,
    handle_new_user_revised uuid_in date_in year now new_id st NEW = (st', None)
    /\ user_profiles st' !! au_id NEW = Some p
    /\ Profile.status p = Profile.not_approved
    /\ (forall k, k <> au_id NEW ->
                  user_profiles st' !! k = user_profiles st !! k)
    /\ memberships st' !! new_id
       = Some (Membership.mk (au_id NEW) b Membership.pending (Some now)
                 None None (Some false) None)
    /\ (forall k, k <> new_id -> memberships st' !! k = memberships st !! k)
    /\ branches st' = branches st.
Proof.
  intros Horig Hmeta Ht Hb Hbranch Hnone Hnew.
  assert (Hnull : nullif_empty (raw_user_meta_data NEW !! "branch_id") = Some t).
  { rewrite Hmeta. simpl. destruct (String.eqb_spec t ""); congruence. }
  pose proof (handle_new_user_Ok_free _ _ _ _ _ Horig) as Hfree.
  apply handle_new_user_Ok_inv in Horig as (name & Hname & Hfresh & _).
  unfold handle_new_user_revised, revised_body, user_branch_id.
  rewrite Hnull, Hb, Hname.
  rewrite insert_profile_Ok by assumption.
  unfold insert_membership. cbn [memberships branches].
  destruct (decide (membership_exists _ _ _)); [contradiction|].
  rewrite Hnew.
  destruct (decide (is_Some None)) as [[? ?]|_]; [discriminate|].
  destruct (decide (is_Some (branches st !! b))); [|contradiction].
  eexists _, _. split; [reflexivity|]. cbn [user_profiles memberships branches].
  split; [apply lookup_insert_eq|]. split; [reflexivity|].
  split; [intros k Hk; by apply lookup_insert_ne|].
  split; [apply lookup_insert_eq|].
  split; [intros k Hk; by apply lookup_insert_ne | reflexivity].
Qed.

Lemma revised_trigger_with_branch_witness :
  exists st' p,
    handle_new_user_revised decimal_uuid (fun _ => None) 2024 50 100
      one_branch yaw = (st', None)
    /\ user_profiles st' !! au_id yaw = Some p
    /\ Profile.status p = Profile.not_approved
    /\ (forall k, k <> au_id yaw ->
                  user_profiles st' !! k = user_profiles one_branch !! k)
    /\ memberships st' !! 100%N
       = Some (Membership.mk (au_id yaw) 2 Membership.pending (Some 50%Z)
                 None None (Some false) None)
    /\ (forall k, k <> 100%N ->
                  memberships st' !! k = memberships one_branch !! k)
    /\ branches st' = branches one_branch.
Proof.
  refine (revised_trigger_with_branch decimal_uuid (fun _ => None)
            2024 50%Z 100%N one_branch yaw "2" 2%N _
            eq_refl eq_refl _ eq_refl _ _ eq_refl).
  - discriminate.
  - simpl. rewrite lookup_singleton_eq. eauto.
  - intros (id & m & Hl & _). simpl in Hl. rewrite lookup_empty in Hl.
    discriminate.
Defined.
